(** * Luci article generator: the pipeline of [main.py]

    The program extracts text from uploaded PDF files, builds one FAISS
    vector store per text, binds a user-edited prompt template to what the
    two stores return and sends the bound prompt to a chat model.

    The PDF parser, the embedding service, the nearest-neighbour search,
    the chat service and the prompt library are collaborators outside the
    program.  They are gathered in a record [Services]; every call to a
    service is logged in the trace of the [World], and each service
    receives the number of calls logged so far, so that its answer may
    change from call to call. *)

From Stdlib Require Import List String Ascii Strings.Byte ZArith QArith Lia Bool.
Import ListNotations.
Local Open Scope nat_scope.
Local Open Scope string_scope.
Local Open Scope list_scope.

(** ** Exceptions and results *)

(** A Python exception, identified by the name of its class. *)
Definition exn := string.

Inductive result (A : Type) : Type :=
| Ok (a : A)
| Raised (e : exn).
Arguments Ok {A} a.
Arguments Raised {A} e.

Definition is_ok {A} (r : result A) : bool :=
  match r with Ok _ => true | Raised _ => false end.

(** ** Data *)

(** [st.file_uploader] returns a [BytesIO]-like object; the program only
    calls [getvalue()] on it. *)
Record UploadedFile := { getvalue : list byte }.

(** A LangChain [Document]; the program reads [page_content] only. *)
Record Document := { page_content : string }.

(** An embedding vector.  The program never inspects its components. *)
Definition vector := list Q.

(** A file made by [tempfile.NamedTemporaryFile]: the bytes that are on
    disk under its path, the bytes that were written and still wait in
    the buffer of the file object, and whether it has been closed.  Its
    path is its position in [files]. *)
Record TempFile := {
  data : list byte;
  pending : list byte;
  closed : bool
}.

(** [ChatOpenAI(model=...)]: the keyword arguments the caller passed.
    [model_temperature = None] means that the argument was not passed and the
    client library applies its own default. *)
Record ChatOpenAI := { model_name : string; model_temperature : option Q }.

Inductive Event :=
| EvPdfLoad (path : nat)
| EvEmbedDocuments (texts : list string)
| EvEmbedQuery (query : string)
| EvChat (model : ChatOpenAI) (prompt : string)
| EvStWrite (out : string).

(** The files in transient storage and the calls made so far, oldest
    first. *)
Record World := { files : list TempFile; trace : list Event }.

Record Services := {
  (** The size of the write buffer of a temporary file (the block size
      of the file system of the temporary directory). *)
  buffer_size : nat;
  (** [PyPDFLoader(path).load_and_split()]: the page contents, read from
      the bytes that are on disk under the path. *)
  pdf_load_and_split : nat -> nat -> list byte -> result (list string);
  (** [OpenAIEmbeddings().embed_documents(texts)]. *)
  embed_documents : nat -> list string -> result (list vector);
  (** [OpenAIEmbeddings().embed_query(text)]. *)
  embed_query : nat -> string -> result vector;
  (** [index.search(v, k)] of the FAISS index: positions of the nearest
      stored vectors, -1 where there are fewer than [k]. *)
  index_search : list vector -> vector -> nat -> list Z;
  (** The chat completion request. *)
  chat_completions : nat -> ChatOpenAI -> string -> result string;
  (** [str] of a list of documents, as [str.format] renders it. *)
  str_documents : list Document -> string;
  (** The prompt library on the templates this development does not
      read itself: the exception [from_template] raises, if any, and
      what formatting with the given inputs gives. *)
  library_from_template : string -> option exn;
  library_format :
    string -> list (string * list Document) -> result string
}.

(** ** The monad of the program: a world is threaded through, and an
    exception stops the computation while the world stays as it is. *)

Definition M (A : Type) : Type := World -> result A * World.

Definition ret {A} (a : A) : M A := fun w => (Ok a, w).

Definition raise {A} (e : exn) : M A := fun w => (Raised e, w).

Definition bind {A B} (m : M A) (k : A -> M B) : M B :=
  fun w =>
    match m w with
    | (Ok a, w') => k a w'
    | (Raised e, w') => (Raised e, w')
    end.

Notation "x <- m ;; k" := (bind m (fun x => k))
  (at level 61, m at next level, right associativity).

Definition lift {A} (r : result A) : M A := fun w => (r, w).

(** A call to a collaborator: the call is logged, then answered. *)
Definition call {A} (ev : Event) (answer : nat -> result A) : M A :=
  fun w =>
    (answer (List.length (trace w)),
     {| files := files w; trace := trace w ++ [ev] |}).

Fixpoint mapM {A B} (f : A -> M B) (l : list A) : M (list B) :=
  match l with
  | [] => ret []
  | x :: l' => y <- f x ;; ys <- mapM f l' ;; ret (y :: ys)
  end.

(** ** Strings *)

(** [sep.join(l)]. *)
Fixpoint join (sep : string) (l : list string) : string :=
  match l with
  | [] => ""
  | [s] => s
  | s :: l' => (s ++ sep ++ join sep l')%string
  end.

(** ** Temporary files *)

Fixpoint update_file (p : nat) (f : TempFile -> TempFile)
         (l : list TempFile) : list TempFile :=
  match l, p with
  | [], _ => []
  | x :: l', O => f x :: l'
  | x :: l', S p' => x :: update_file p' f l'
  end.

Definition set_files (fs : list TempFile) (w : World) : World :=
  {| files := fs; trace := trace w |}.

(** [tempfile.NamedTemporaryFile(delete=False)]: a new, empty, open
    file. *)
Definition NamedTemporaryFile : M nat :=
  fun w =>
    (Ok (List.length (files w)),
     set_files
       (files w ++ [{| data := []; pending := []; closed := false |}]) w).

(** [write] on the buffered file object.  Bytes that fit into the free
    part of the buffer stay there.  Otherwise the buffer is flushed
    first; bytes that are more than a whole buffer then go to disk at
    once, fewer are kept in the emptied buffer. *)
Definition buffered_write (size : nat) (bs : list byte) (f : TempFile)
  : TempFile :=
  if (List.length bs <=? size - List.length (pending f))%nat
  then {| data := data f; pending := pending f ++ bs; closed := closed f |}
  else if (size <? List.length bs)%nat
  then {| data := data f ++ pending f ++ bs;
          pending := [];
          closed := closed f |}
  else {| data := data f ++ pending f; pending := bs; closed := closed f |}.

Definition file_write (size : nat) (p : nat) (bs : list byte) : M unit :=
  fun w =>
    (Ok tt, set_files (update_file p (buffered_write size bs) (files w)) w).

(** Leaving the [with] block closes the file, which flushes the buffer.
    Since the file was made with [delete=False], closing does not remove
    it. *)
Definition file_close (p : nat) (w : World) : World :=
  set_files
    (update_file p
       (fun f =>
          {| data := data f ++ pending f; pending := []; closed := true |})
       (files w)) w.

(** [with tempfile.NamedTemporaryFile(delete=False) as temp_file: body]:
    the file is closed when the body returns and when it raises. *)
Definition with_NamedTemporaryFile {A} (body : nat -> M A) : M A :=
  fun w =>
    match NamedTemporaryFile w with
    | (Ok p, w1) =>
        let (r, w2) := body p w1 in (r, file_close p w2)
    | (Raised e, w1) => (Raised e, w1)
    end.

(** ** LuciDocumentProcessor *)

Section Pipeline.

Variable svc : Services.

(** The loader opens the path: it reads what is on disk at that time. *)
Definition PyPDFLoader_load_and_split (p : nat) : M (list string) :=
  fun w =>
    call (EvPdfLoad p)
      (fun t =>
         pdf_load_and_split svc t p
           (data
              (nth p (files w)
                 {| data := []; pending := []; closed := true |})))
      w.

Definition get_text (file_data : UploadedFile) : M string :=
  with_NamedTemporaryFile (fun temp_file =>
    _ <- file_write (buffer_size svc) temp_file (getvalue file_data) ;;
    pages <- PyPDFLoader_load_and_split temp_file ;;
    ret (join "" pages)).

(** ** LuciVectorStoreManager *)

(** A FAISS store: the documents and the vectors of the index. *)
Record FAISS := { docstore : list Document; index : list vector }.

Definition FAISS_from_texts (texts : list string) : M FAISS :=
  vs <- call (EvEmbedDocuments texts)
          (fun t => embed_documents svc t texts) ;;
  ret {| docstore := map (fun t => {| page_content := t |}) texts;
         index := vs |}.

Record VectorStoreRetriever := { vectorstore : FAISS; search_k : nat }.

Definition as_retriever (vs : FAISS) : VectorStoreRetriever :=
  {| vectorstore := vs; search_k := 4 |}.

Definition build_vectorstore (text : string) : M VectorStoreRetriever :=
  vs <- FAISS_from_texts [text] ;;
  ret (as_retriever vs).

(** The documents at the positions the index search returned: -1 is
    skipped, a position without a document raises. *)
Fixpoint lookup_documents (docs : list Document) (hits : list Z)
  : result (list Document) :=
  match hits with
  | [] => Ok []
  | i :: hits' =>
      if (i =? -1)%Z then lookup_documents docs hits'
      else if (i <? 0)%Z then Raised "KeyError"
      else
        match nth_error docs (Z.to_nat i) with
        | None => Raised "KeyError"
        | Some d =>
            match lookup_documents docs hits' with
            | Ok ds => Ok (d :: ds)
            | Raised e => Raised e
            end
        end
  end.

(** [retriever.invoke(query)]: the query is embedded and the nearest
    [search_k] documents are returned. *)
Definition retriever_invoke (r : VectorStoreRetriever) (query : string)
  : M (list Document) :=
  qv <- call (EvEmbedQuery query) (fun t => embed_query svc t query) ;;
  lift (lookup_documents (docstore (vectorstore r))
          (index_search svc (index (vectorstore r)) qv (search_k r))).


(** ** ChatPromptTemplate

    The template is an f-string template.  This development reads the
    templates made of literal text, the escapes for the two braces and
    fields whose name is an identifier; what the prompt library does
    with any other template (conversions, format specifications,
    attribute or index access, positional fields, reserved names) is
    left to the library, a collaborator. *)

Inductive piece :=
| Lit (c : ascii)
| Field (name : string).

Inductive parsed_template :=
| Parsed (ps : list piece)
| Malformed
| Unmodelled.

Definition add_piece (p : piece) (r : parsed_template) : parsed_template :=
  match r with
  | Parsed ps => Parsed (p :: ps)
  | Malformed => Malformed
  | Unmodelled => Unmodelled
  end.

Definition is_digit (c : ascii) : bool :=
  let n := nat_of_ascii c in ((48 <=? n) && (n <=? 57))%nat.

Definition is_identifier_char (c : ascii) : bool :=
  let n := nat_of_ascii c in
  ((65 <=? n)%nat && (n <=? 90)%nat)
  || ((97 <=? n)%nat && (n <=? 122)%nat)
  || is_digit c || (n =? 95)%nat.

(** The names read as fields: identifiers, but for the name the prompt
    library reserves. *)
Definition is_field_name (name : string) : bool :=
  match name with
  | EmptyString => false
  | String c _ => negb (is_digit c) && negb (String.eqb name "stop")
  end.

(** [string.Formatter().parse], from left to right: [field] is the name
    read so far when the scan is inside a field.  [Malformed] stands for
    the [ValueError] that a single closing brace or a field without its
    closing brace raises.  The scan gives up with [Unmodelled] at the
    first field that is not an identifier. *)
Fixpoint parse_template (s : string) (field : option string)
  : parsed_template :=
  match field, s with
  | None, EmptyString => Parsed []
  | None, String "{" (String "{" r) =>
      add_piece (Lit "{") (parse_template r None)
  | None, String "{" r => parse_template r (Some "")
  | None, String "}" (String "}" r) =>
      add_piece (Lit "}") (parse_template r None)
  | None, String "}" _ => Malformed
  | None, String c r => add_piece (Lit c) (parse_template r None)
  | Some _, EmptyString => Malformed
  | Some name, String "}" r =>
      if is_field_name name
      then add_piece (Field name) (parse_template r None)
      else Unmodelled
  | Some name, String c r =>
      if is_identifier_char c
      then parse_template r (Some (name ++ String c "")%string)
      else Unmodelled
  end.

(** A prompt template: one this development reads, or one kept as the
    library's. *)
Inductive ChatPromptTemplate :=
| FString (ps : list piece)
| LibraryTemplate (template : string).

Definition from_template (template : string) : M ChatPromptTemplate :=
  match parse_template template None with
  | Parsed ps => ret (FString ps)
  | Malformed => raise "ValueError"
  | Unmodelled =>
      match library_from_template svc template with
      | Some e => raise e
      | None => ret (LibraryTemplate template)
      end
  end.

Fixpoint input_variables (ps : list piece) : list string :=
  match ps with
  | [] => []
  | Lit _ :: ps' => input_variables ps'
  | Field n :: ps' => n :: input_variables ps'
  end.

(** A dict with string keys, as the chain passes it on. *)
Definition dict (V : Type) := list (string * V).

Fixpoint dict_get {V} (d : dict V) (k : string) : option V :=
  match d with
  | [] => None
  | (k', v) :: d' => if String.eqb k' k then Some v else dict_get d' k
  end.

Definition has_key {V} (d : dict V) (k : string) : bool :=
  match dict_get d k with Some _ => true | None => false end.

(** The text a piece stands for once the fields are bound. *)
Definition format_piece (inputs : dict (list Document)) (p : piece)
  : string :=
  match p with
  | Lit c => String c ""
  | Field n =>
      match dict_get inputs n with
      | Some docs => str_documents svc docs
      | None => ""
      end
  end.

Definition format_pieces (ps : list piece)
           (inputs : dict (list Document)) : string :=
  join "" (map (format_piece inputs) ps).

(** [prompt.invoke(inputs)]: a variable of the template that the inputs
    do not bind raises [KeyError]; keys the template does not use are
    ignored. *)
Definition prompt_invoke (prompt : ChatPromptTemplate)
           (inputs : dict (list Document)) : M string :=
  match prompt with
  | FString ps =>
      if forallb (has_key inputs) (input_variables ps)
      then ret (format_pieces ps inputs)
      else raise "KeyError"
  | LibraryTemplate template => lift (library_format svc template inputs)
  end.

(** ** LuciUIController *)

Definition model_options : list string :=
  ["gpt-4"; "gpt-3.5-turbo-0613"; "Gemini"; "Luci-FT-Gen"; "Claude2"].

Definition default_prompt_text : string :=
  "Write an article using the style of this document {style}. Replicate its approach to generating titles and subheading. Ensure that the subheadings relate to the content that follows to be as helpful as possible to the reader.  Think carefully about the principles of a good headline and apply these principles to make the headline as relevant, catchy and compelling as you can to encourage readership. Put a newline after each title and subheading. For the article base it only on the following content: {context}. Use only the content do not publish the names of the people responsible for the research.".

Record LuciUIController := {
  selected_model : string;
  temperature : Q;
  sample_article : option UploadedFile;
  essays : list UploadedFile;
  prompt_text : string
}.

(** What the user did with the widgets of the page. *)
Record Widgets := {
  model_choice : nat;
  temperature_slider : Q;
  sample_article_upload : option UploadedFile;
  essays_upload : list UploadedFile;
  prompt_edit : option string
}.

(** [st.selectbox(label, options)]: one of the options, the first one
    unless the user picked another. *)
Definition selectbox (options : list string) (choice : nat) : string :=
  nth choice options (hd "" options).

(** [st.slider(label, lo, hi, value)]: a value between the bounds. *)
Definition slider (lo hi v : Q) : Q :=
  if Qle_bool v lo then lo else if Qle_bool hi v then hi else v.

(** [st.text_area(label, value)]: the default until the user edits. *)
Definition text_area (value : string) (edit : option string) : string :=
  match edit with Some s => s | None => value end.

Definition setup_ui (wd : Widgets) : LuciUIController :=
  {| selected_model := selectbox model_options (model_choice wd);
     temperature := slider 0 1 (temperature_slider wd);
     sample_article := sample_article_upload wd;
     essays := essays_upload wd;
     prompt_text := text_area default_prompt_text (prompt_edit wd) |}.

(** ** LuciArticleGenerator *)

Definition st_write (out : string) : M unit :=
  call (EvStWrite out) (fun _ => Ok tt).

Definition ChatOpenAI_invoke (model : ChatOpenAI) (prompt : string)
  : M string :=
  call (EvChat model prompt) (fun t => chat_completions svc t model prompt).

(** [({"context": c, "style": s} | prompt | model | StrOutputParser())
    .invoke(query)].  The two retrievers of the dict run on the same
    query; the model takes them in the order of the dict. *)
Definition chain_invoke (source_retriever style_retriever
                           : VectorStoreRetriever)
           (prompt : ChatPromptTemplate) (model : ChatOpenAI)
           (query : string) : M string :=
  context <- retriever_invoke source_retriever query ;;
  style <- retriever_invoke style_retriever query ;;
  bound <- prompt_invoke prompt [("context", context); ("style", style)] ;;
  reply <- ChatOpenAI_invoke model bound ;;
  ret reply.

Definition query_text : string := "Please write an article in this style".

Definition generate (ui : LuciUIController) : M unit :=
  style_text <- match sample_article ui with
                | Some f => get_text f
                | None => ret ""
                end ;;
  source_texts <- match essays ui with
                  | [] => ret []
                  | _ => mapM get_text (essays ui)
                  end ;;
  source_retriever <- build_vectorstore (join " " source_texts) ;;
  style_retriever <- build_vectorstore style_text ;;
  prompt <- from_template (prompt_text ui) ;;
  let model := {| model_name := selected_model ui;
                  model_temperature := None |} in
  result_chain <- chain_invoke source_retriever style_retriever prompt
                    model query_text ;;
  st_write result_chain.

End Pipeline.

(** ** The script

    [if __name__ == "__main__"]: the page is set up on every run of the
    script, and the article is generated when the button was pressed.
    (The key read from the environment is not used by the script
    itself.) *)
Definition main (svc : Services) (wd : Widgets) (run_pressed : bool)
  : M unit :=
  let ui_controller := setup_ui wd in
  if run_pressed then generate svc ui_controller else ret tt.


(** ** Stand-ins for the collaborators

    Concrete services on which the pipeline can be run: a write buffer
    of 4096 bytes, a parser that reads the text on disk as one page, an
    embedding service, a flat index that returns the first [k]
    positions, and a chat service that answers with the prompt it was
    given; and strict variants that refuse some inputs. *)

Module Fake.

(** The stand-in for a document: its text, a zero byte, and zero bytes
    as padding. *)
Fixpoint text_part (bs : list byte) : list byte :=
  match bs with
  | [] => []
  | b :: bs' => if Byte.eqb b x00 then [] else b :: text_part bs'
  end.

Definition pdf (t p : nat) (on_disk : list byte) : result (list string) :=
  Ok [string_of_list_byte (text_part on_disk)].

(** A parser that refuses an empty file. *)
Definition strict_pdf (t p : nat) (on_disk : list byte)
  : result (list string) :=
  match on_disk with
  | [] => Raised "EmptyFileError"
  | bs => Ok [string_of_list_byte (text_part bs)]
  end.

Definition embed_one (s : string) : vector :=
  [inject_Z (Z.of_nat (String.length s))].

Definition embed_docs (t : nat) (texts : list string)
  : result (list vector) := Ok (map embed_one texts).

Definition embed_q (t : nat) (q : string) : result vector :=
  Ok (embed_one q).

(** An embedding service that refuses empty input. *)
Definition strict_embed_docs (t : nat) (texts : list string)
  : result (list vector) :=
  if existsb (String.eqb "") texts then Raised "BadRequestError"
  else Ok (map embed_one texts).

Definition search (vs : list vector) (q : vector) (k : nat) : list Z :=
  map Z.of_nat (seq 0 (Nat.min k (List.length vs)))
    ++ repeat (-1)%Z (k - List.length vs).

Definition chat (t : nat) (m : ChatOpenAI) (prompt : string)
  : result string :=
  Ok ("Article by " ++ model_name m ++ ": " ++ prompt)%string.

(** A chat service that knows two models only. *)
Definition strict_chat (t : nat) (m : ChatOpenAI) (prompt : string)
  : result string :=
  if existsb (String.eqb (model_name m)) ["gpt-4"; "gpt-3.5-turbo-0613"]
  then chat t m prompt
  else Raised "NotFoundError".

Definition str_docs (docs : list Document) : string :=
  ("[" ++ join ", " (map (fun d => "<" ++ page_content d ++ ">") docs)
       ++ "]")%string.

(** A prompt library that refuses every template left to it. *)
Definition refuse_template (template : string) : option exn :=
  Some "ValueError".

Definition refuse_format (template : string)
           (inputs : list (string * list Document)) : result string :=
  Raised "ValueError".

Definition services : Services :=
  {| buffer_size := 4096;
     pdf_load_and_split := pdf;
     embed_documents := embed_docs;
     embed_query := embed_q;
     index_search := search;
     chat_completions := chat;
     str_documents := str_docs;
     library_from_template := refuse_template;
     library_format := refuse_format |}.

Definition strict_services : Services :=
  {| buffer_size := 4096;
     pdf_load_and_split := strict_pdf;
     embed_documents := strict_embed_docs;
     embed_query := embed_q;
     index_search := search;
     chat_completions := strict_chat;
     str_documents := str_docs;
     library_from_template := refuse_template;
     library_format := refuse_format |}.

(** An upload with the text [s], padded to more than the write buffer
    holds, and one of the bare text, which fits into the buffer. *)
Definition upload (s : string) : UploadedFile :=
  {| getvalue := list_byte_of_string s ++ repeat x00 5000 |}.

Definition small_upload (s : string) : UploadedFile :=
  {| getvalue := list_byte_of_string s |}.

Definition empty_world : World := {| files := []; trace := [] |}.

End Fake.

(** * Vocabulary of the properties *)

Definition log (ev : Event) (w : World) : World :=
  {| files := files w; trace := trace w ++ [ev] |}.

(** The file of an upload once [get_text] is over. *)
Definition closed_file (f : UploadedFile) : TempFile :=
  {| data := getvalue f; pending := []; closed := true |}.

(** The bytes on disk when the parser is called: the one [write] of
    [get_text] leaves a payload that fits into the buffer in the buffer
    and writes a larger one through. *)
Definition on_disk_at_parse (svc : Services) (f : UploadedFile)
  : list byte :=
  if (List.length (getvalue f) <=? buffer_size svc)%nat
  then []
  else getvalue f.

Definition result_map {A B} (f : A -> B) (r : result A) : result B :=
  match r with Ok a => Ok (f a) | Raised e => Raised e end.

Definition single_store (text : string) (vs : list vector)
  : VectorStoreRetriever :=
  as_retriever {| docstore := [{| page_content := text |}]; index := vs |}.

(** The storage a call used has been cleaned up when the files after the
    call are the files before it. *)
Definition cleaned_up (before after : World) : Prop :=
  files after = files before.

Definition is_pdf_load (ev : Event) : bool :=
  match ev with EvPdfLoad _ => true | _ => false end.

(** The keys of the dict the chain hands to the prompt. *)
Definition chain_keys : list string := ["context"; "style"].

(** The template parses and all its fields are keys of the chain. *)
Definition template_binds (template : string) : bool :=
  match parse_template template None with
  | Parsed ps =>
      forallb (fun n => existsb (String.eqb n) chain_keys)
        (input_variables ps)
  | _ => false
  end.

(** The template is one this development reads itself. *)
Definition reads_template (template : string) : bool :=
  match parse_template template None with
  | Unmodelled => false
  | _ => true
  end.

(** [from_template] and [prompt.invoke] as functions of the template
    and the inputs: neither touches the world. *)
Definition template_of (svc : Services) (template : string)
  : result ChatPromptTemplate :=
  match parse_template template None with
  | Parsed ps => Ok (FString ps)
  | Malformed => Raised "ValueError"
  | Unmodelled =>
      match library_from_template svc template with
      | Some e => Raised e
      | None => Ok (LibraryTemplate template)
      end
  end.

Definition prompt_value (svc : Services) (prompt : ChatPromptTemplate)
           (inputs : dict (list Document)) : result string :=
  match prompt with
  | FString ps =>
      if forallb (has_key inputs) (input_variables ps)
      then Ok (format_pieces svc ps inputs)
      else Raised "KeyError"
  | LibraryTemplate template => library_format svc template inputs
  end.

Section Vocabulary.

Variable svc : Services.

(** [t] is the text some call of [get_text] extracted from [essay]. *)
Definition extracted_from (essay : UploadedFile) (t : string) : Prop :=
  exists w0 w1, get_text svc essay w0 = (Ok t, w1).

Definition style_extracted (ui : LuciUIController) (t : string) : Prop :=
  match sample_article ui with
  | Some f => extracted_from f t
  | None => t = ""
  end.

Definition chat_model (ui : LuciUIController) : ChatOpenAI :=
  {| model_name := selected_model ui; model_temperature := None |}.

(** The calls of a run once extraction is over, in order. *)
Definition pipeline_calls (ui : LuciUIController)
           (corpus style p out : string) : list Event :=
  [EvEmbedDocuments [corpus]; EvEmbedDocuments [style];
   EvEmbedQuery query_text; EvEmbedQuery query_text;
   EvChat (chat_model ui) p; EvStWrite out].

Definition style_stage (ui : LuciUIController) : M string :=
  match sample_article ui with
  | Some f => get_text svc f
  | None => ret ""
  end.

Definition content_stage (ui : LuciUIController) : M (list string) :=
  match essays ui with
  | [] => ret []
  | _ => mapM (get_text svc) (essays ui)
  end.

(** What [generate] does with the extracted texts. *)
Definition after_extraction (ui : LuciUIController) (style_text : string)
           (source_texts : list string) : M unit :=
  source_retriever <- build_vectorstore svc (join " " source_texts) ;;
  style_retriever <- build_vectorstore svc style_text ;;
  prompt <- from_template svc (prompt_text ui) ;;
  result_chain <- chain_invoke svc source_retriever style_retriever prompt
                    (chat_model ui) query_text ;;
  st_write result_chain.

End Vocabulary.

(** Collaborators that answer every call: the parser and the services
    return, the embedding service gives one vector per text, and the
    index search gives positions of stored vectors or -1. *)
Definition dependable (svc : Services) : Prop :=
  (forall t p f, is_ok (pdf_load_and_split svc t p f) = true)
  /\ (forall t texts,
        exists vs,
          embed_documents svc t texts = Ok vs
          /\ List.length vs = List.length texts)
  /\ (forall t q, is_ok (embed_query svc t q) = true)
  /\ (forall vs q k,
        Forall (fun i => i = (-1)%Z
                         \/ (0 <= i < Z.of_nat (List.length vs))%Z)
          (index_search svc vs q k))
  /\ (forall t m p, is_ok (chat_completions svc t m p) = true).

Definition no_content_ui : LuciUIController :=
  {| selected_model := "gpt-4";
     temperature := 7 # 10;
     sample_article := None;
     essays := [];
     prompt_text := "Style: {style}. Content: {context}." |}.


Definition abc_ui : LuciUIController :=
  {| selected_model := "gpt-4";
     temperature := 0;
     sample_article := Some (Fake.upload "S");
     essays := [Fake.upload "A"; Fake.upload "B"; Fake.upload "C"];
     prompt_text := "{style}|{context}" |}.

(** The texts handed to the embedding service for indexing, in order. *)
Fixpoint embedded_texts (tr : list Event) : list (list string) :=
  match tr with
  | [] => []
  | EvEmbedDocuments l :: tr' => l :: embedded_texts tr'
  | _ :: tr' => embedded_texts tr'
  end.

Definition essays_ui (docs : list UploadedFile) : LuciUIController :=
  {| selected_model := "gpt-4";
     temperature := 7 # 10;
     sample_article := None;
     essays := docs;
     prompt_text := "{style}|{context}" |}.

Definition with_temperature (t : Q) (ui : LuciUIController)
  : LuciUIController :=
  {| selected_model := selected_model ui;
     temperature := t;
     sample_article := sample_article ui;
     essays := essays ui;
     prompt_text := prompt_text ui |}.

Fixpoint identifier_chars (n : string) : bool :=
  match n with
  | EmptyString => true
  | String c n' => is_identifier_char c && identifier_chars n'
  end.

(** The pieces of the templates this development reads: a field is
    named by an identifier. *)
Definition plain_piece (p : piece) : bool :=
  match p with
  | Lit _ => true
  | Field n => identifier_chars n && is_field_name n
  end.

(** The text of a template piece: a brace is written twice, a field
    between braces. *)
Definition piece_text (p : piece) : string :=
  match p with
  | Lit c =>
      if Ascii.eqb c "{" then "{{"
      else if Ascii.eqb c "}" then "}}"
      else String c ""
  | Field n => ("{" ++ n ++ "}")%string
  end.

Definition template_text (ps : list piece) : string :=
  join "" (map piece_text ps).

(** What a piece becomes when the two values are substituted. *)
Definition substitute (context_value style_value : string) (p : piece)
  : string :=
  match p with
  | Lit c => String c ""
  | Field n => if String.eqb n "context" then context_value else style_value
  end.

(** ** Runs in closed form

    What a run returns and logs, as a function of the answers of the
    collaborators; [t] is the number of calls logged before, [p] the
    number of files in storage. *)

(** The uploaded documents in the order [generate] reads them. *)
Definition style_docs (ui : LuciUIController) : list UploadedFile :=
  match sample_article ui with Some f => [f] | None => [] end.

Definition uploads (ui : LuciUIController) : list UploadedFile :=
  style_docs ui ++ essays ui.

(** The texts extracted from the documents, or the first exception of
    the parser, with the number of documents the parser was called on. *)
Fixpoint extraction (svc : Services) (l : list UploadedFile) (t p : nat)
  : result (list string) * nat :=
  match l with
  | [] => (Ok [], 0)
  | f :: l' =>
      match pdf_load_and_split svc t p (on_disk_at_parse svc f) with
      | Raised e => (Raised e, 1)
      | Ok pages =>
          let (r, j) := extraction svc l' (S t) (S p) in
          (result_map (cons (join "" pages)) r, S j)
      end
  end.

(** What a retriever over the single text [text] returns at time [t]. *)
Definition retrieved (svc : Services) (t : nat) (text : string)
           (vs : list vector) (q : string) : result (list Document) :=
  match embed_query svc t q with
  | Ok qv =>
      lookup_documents [{| page_content := text |}]
        (index_search svc vs qv 4)
  | Raised e => Raised e
  end.

Definition chain_calls (svc : Services) (corpus style : string)
           (vs1 vs2 : list vector) (prompt : ChatPromptTemplate)
           (m : ChatOpenAI) (q : string) (t : nat)
  : result string * list Event :=
  match retrieved svc t corpus vs1 q with
  | Raised e => (Raised e, [EvEmbedQuery q])
  | Ok context_docs =>
      match retrieved svc (1 + t) style vs2 q with
      | Raised e => (Raised e, [EvEmbedQuery q; EvEmbedQuery q])
      | Ok style_docs =>
          match prompt_value svc prompt
                  [("context", context_docs); ("style", style_docs)] with
          | Ok bound =>
              (chat_completions svc (2 + t) m bound,
               [EvEmbedQuery q; EvEmbedQuery q; EvChat m bound])
          | Raised e => (Raised e, [EvEmbedQuery q; EvEmbedQuery q])
          end
      end
  end.

Definition calls_after_extraction (svc : Services) (ui : LuciUIController)
           (corpus style : string) (t : nat) : result unit * list Event :=
  match embed_documents svc t [corpus] with
  | Raised e => (Raised e, [EvEmbedDocuments [corpus]])
  | Ok vs1 =>
      match embed_documents svc (1 + t) [style] with
      | Raised e =>
          (Raised e, [EvEmbedDocuments [corpus]; EvEmbedDocuments [style]])
      | Ok vs2 =>
          match template_of svc (prompt_text ui) with
          | Raised e =>
              (Raised e,
               [EvEmbedDocuments [corpus]; EvEmbedDocuments [style]])
          | Ok prompt =>
              match chain_calls svc corpus style vs1 vs2 prompt
                      (chat_model ui) query_text (2 + t) with
              | (Raised e, evs) =>
                  (Raised e,
                   EvEmbedDocuments [corpus] :: EvEmbedDocuments [style]
                     :: evs)
              | (Ok out, evs) =>
                  (Ok tt,
                   EvEmbedDocuments [corpus] :: EvEmbedDocuments [style]
                     :: evs ++ [EvStWrite out])
              end
          end
      end
  end.

(** The style text and the source texts among the extracted texts. *)
Definition split_texts (ui : LuciUIController) (texts : list string)
  : string * list string :=
  match sample_article ui with
  | Some _ => (hd "" texts, tl texts)
  | None => ("", texts)
  end.

(** The result of a run, the number of parser calls and the calls that
    follow them. *)
Definition run_outcome (svc : Services) (ui : LuciUIController)
           (t p : nat) : result unit * nat * list Event :=
  match extraction svc (uploads ui) t p with
  | (Raised e, j) => (Raised e, j, [])
  | (Ok texts, j) =>
      let (style, sources) := split_texts ui texts in
      let (r, evs) :=
        calls_after_extraction svc ui (join " " sources) style (j + t) in
      (r, j, evs)
  end.


(** The world after the calls [evs] were logged. *)
Definition logged (evs : list Event) (w : World) : World :=
  {| files := files w; trace := trace w ++ evs |}.

(** The world after a run that called the parser on the first [j]
    documents of [docs] and then made the calls [evs]. *)
Definition after_run (docs : list UploadedFile) (j : nat)
           (evs : list Event) (w : World) : World :=
  {| files := files w ++ map closed_file (firstn j docs);
     trace :=
       trace w ++ map EvPdfLoad (seq (List.length (files w)) j) ++ evs |}.

(** Some world with [t] calls logged and [p] files in storage. *)
Definition world_at (t p : nat) : World :=
  {| files := repeat {| data := []; pending := []; closed := true |} p;
     trace := repeat (EvPdfLoad 0) t |}.

Definition gpt4 : ChatOpenAI :=
  {| model_name := "gpt-4"; model_temperature := None |}.

(** The run of [abc_ui] with the stand-in services. *)
Definition abc_prompt : string := "[<S>]|[<A B C>]".

Definition abc_files : list TempFile :=
  [closed_file (Fake.upload "S"); closed_file (Fake.upload "A");
   closed_file (Fake.upload "B"); closed_file (Fake.upload "C")].

Definition abc_calls : list Event :=
  [EvPdfLoad 0; EvPdfLoad 1; EvPdfLoad 2; EvPdfLoad 3;
   EvEmbedDocuments ["A B C"]; EvEmbedDocuments ["S"];
   EvEmbedQuery query_text; EvEmbedQuery query_text;
   EvChat gpt4 abc_prompt;
   EvStWrite "Article by gpt-4: [<S>]|[<A B C>]"].

(** The run of two source documents with the stand-in services, with
    [path] files in storage before. *)
Definition ab_calls (path : nat) : list Event :=
  [EvPdfLoad path; EvPdfLoad (S path);
   EvEmbedDocuments ["a b"]; EvEmbedDocuments [""];
   EvEmbedQuery query_text; EvEmbedQuery query_text;
   EvChat gpt4 "[<>]|[<a b>]";
   EvStWrite "Article by gpt-4: [<>]|[<a b>]"].

Definition abc_widgets : Widgets :=
  {| model_choice := 9;
     temperature_slider := 3;
     sample_article_upload := Some (Fake.upload "S");
     essays_upload := [Fake.upload "A"; Fake.upload "B"; Fake.upload "C"];
     prompt_edit := Some "{style}|{context}" |}.

(** * Properties *)

(** ** Running the stages

    Each stage is one call to a collaborator; what it returns and the
    world it leaves are given in closed form. *)

Lemma update_file_last (l : list TempFile) (x : TempFile) g :
  update_file (List.length l) g (l ++ [x]) = l ++ [g x].
Proof.
  induction l as [|y l IH]; simpl; [reflexivity|].
  now rewrite IH.
Qed.

Lemma nth_last (l : list TempFile) (x d : TempFile) :
  nth (List.length l) (l ++ [x]) d = x.
Proof.
  rewrite app_nth2 by lia. now rewrite Nat.sub_diag.
Qed.

Section Runs.

Variable svc : Services.

Lemma buffered_write_new_file (size : nat) (bs : list byte) :
  buffered_write size bs {| data := []; pending := []; closed := false |} =
  if (List.length bs <=? size)%nat
  then {| data := []; pending := bs; closed := false |}
  else {| data := bs; pending := []; closed := false |}.
Proof.
  unfold buffered_write. cbn [pending data closed List.length app].
  rewrite Nat.sub_0_r.
  destruct (Nat.leb_spec (List.length bs) size) as [Hle|Hlt];
    [reflexivity|].
  destruct (Nat.ltb_spec size (List.length bs)); [reflexivity|lia].
Qed.

Lemma get_text_run (f : UploadedFile) (w : World) :
  get_text svc f w =
  (result_map (join "")
     (pdf_load_and_split svc (List.length (trace w))
        (List.length (files w)) (on_disk_at_parse svc f)),
   {| files := files w ++ [closed_file f];
      trace := trace w ++ [EvPdfLoad (List.length (files w))] |}).
Proof.
  unfold get_text, with_NamedTemporaryFile, NamedTemporaryFile, bind,
    file_write, PyPDFLoader_load_and_split, call, ret, file_close,
    set_files, on_disk_at_parse, closed_file.
  cbn [files trace].
  rewrite !update_file_last, buffered_write_new_file, nth_last.
  destruct (List.length (getvalue f) <=? buffer_size svc)%nat;
    cbn [data pending closed];
    destruct (pdf_load_and_split svc _ _ _) as [pages|e]; cbn [files trace];
    rewrite update_file_last; cbn [data pending closed app];
    rewrite ?app_nil_r; reflexivity.
Qed.

Lemma build_vectorstore_run (text : string) (w : World) :
  build_vectorstore svc text w =
  (result_map (single_store text)
     (embed_documents svc (List.length (trace w)) [text]),
   log (EvEmbedDocuments [text]) w).
Proof.
  unfold build_vectorstore, FAISS_from_texts, bind, call, ret, log.
  destruct (embed_documents svc _ _); reflexivity.
Qed.

Lemma retriever_invoke_run (r : VectorStoreRetriever) (q : string)
      (w : World) :
  retriever_invoke svc r q w =
  (match embed_query svc (List.length (trace w)) q with
   | Ok qv =>
       lookup_documents (docstore (vectorstore r))
         (index_search svc (index (vectorstore r)) qv (search_k r))
   | Raised e => Raised e
   end,
   log (EvEmbedQuery q) w).
Proof.
  unfold retriever_invoke, bind, call, lift, log.
  destruct (embed_query svc _ _); reflexivity.
Qed.

Lemma lookup_documents_sound (docs : list Document) (hits : list Z)
      (found : list Document) :
  lookup_documents docs hits = Ok found ->
  Forall (fun d => In d docs) found.
Proof.
  revert found. induction hits as [|i hits IH]; intros found H; simpl in H.
  - inversion H. constructor.
  - destruct (i =? -1)%Z; [now apply IH|].
    destruct (i <? 0)%Z; [discriminate|].
    destruct (nth_error docs (Z.to_nat i)) as [d|] eqn:Hd; [|discriminate].
    destruct (lookup_documents docs hits) as [ds|e]; [|discriminate].
    inversion H; subst. constructor.
    + eapply nth_error_In; eassumption.
    + now apply IH.
Qed.

Lemma retrieve_single_store (text : string) (vs : list vector) (q : string)
      (w : World) (docs : list Document) :
  fst (retriever_invoke svc (single_store text vs) q w) = Ok docs ->
  Forall (fun d => page_content d = text) docs.
Proof.
  rewrite retriever_invoke_run. cbn [fst].
  destruct (embed_query svc _ _) as [qv|e]; [|discriminate].
  intros H. apply lookup_documents_sound in H. cbn in H.
  eapply Forall_impl; [|exact H].
  intros d [<-|[]]. reflexivity.
Qed.

Lemma build_vectorstore_inv (text : string) (w w' : World) r :
  build_vectorstore svc text w = (r, w') ->
  w' = log (EvEmbedDocuments [text]) w
  /\ forall rt, r = Ok rt -> exists vs, rt = single_store text vs.
Proof.
  rewrite build_vectorstore_run. intros [= <- <-]. split; [reflexivity|].
  intros rt H. destruct (embed_documents svc _ _) as [vs|e];
    [|discriminate].
  injection H as <-. now exists vs.
Qed.

End Runs.

(** ** Document Extractor: the temporary file *)

(** C5, as stated, fails: after a successful extraction the temporary
    file is still in storage. *)
Lemma get_text_leaves_file_behind :
  fst (get_text Fake.services (Fake.upload "A") Fake.empty_world) = Ok "A"
  /\ ~ cleaned_up Fake.empty_world
        (snd (get_text Fake.services (Fake.upload "A") Fake.empty_world)).
Proof.
  split; [vm_compute; reflexivity|].
  unfold cleaned_up. rewrite get_text_run. cbn [snd files Fake.empty_world app].
  discriminate.
Qed.

(** C5 (amended): for every invocation of [get_text], whether the
    extraction succeeds or raises, the temporary file is closed when the
    call exits, and it is not removed: storage holds one more file, closed
    and containing the payload. *)
Theorem get_text_closes_but_keeps_file
        (svc : Services) (f : UploadedFile) (w : World) :
  files (snd (get_text svc f w)) =
  files w ++ [{| data := getvalue f; pending := []; closed := true |}].
Proof.
  rewrite get_text_run. reflexivity.
Qed.

(** ** Semantic Index Builder *)

(** C10: for every corpus, the store that [build_vectorstore] returns
    holds exactly one text, the whole corpus, and every retrieval from it
    that returns yields documents whose content is the whole corpus. *)
Theorem build_vectorstore_single_entry
        (svc : Services) (text : string) (w w' : World)
        (r : VectorStoreRetriever) :
  build_vectorstore svc text w = (Ok r, w') ->
  docstore (vectorstore r) = [{| page_content := text |}]
  /\ forall q w1 docs w2,
       retriever_invoke svc r q w1 = (Ok docs, w2) ->
       Forall (fun d => page_content d = text) docs.
Proof.
  intros H. apply build_vectorstore_inv in H. destruct H as [_ H].
  destruct (H r eq_refl) as [vs ->]. split; [reflexivity|].
  intros q w1 docs w2 Hq.
  apply (retrieve_single_store svc text vs q w1). now rewrite Hq.
Qed.

Lemma build_vectorstore_single_entry_witness :
  build_vectorstore Fake.services "Report on revenue." Fake.empty_world =
  (Ok (single_store "Report on revenue."
         [Fake.embed_one "Report on revenue."]),
   {| files := []; trace := [EvEmbedDocuments ["Report on revenue."]] |})
  /\ docstore
       (vectorstore
          (single_store "Report on revenue."
             [Fake.embed_one "Report on revenue."])) =
     [{| page_content := "Report on revenue." |}]
  /\ forall q w1 docs w2,
       retriever_invoke Fake.services
         (single_store "Report on revenue."
            [Fake.embed_one "Report on revenue."])
         q w1 = (Ok docs, w2) ->
       Forall (fun d => page_content d = "Report on revenue.") docs.
Proof.
  split; [reflexivity|].
  exact (build_vectorstore_single_entry Fake.services
           "Report on revenue." Fake.empty_world _ _ eq_refl).
Defined.

(** C3, as stated, fails: with an embedding service that refuses empty
    input, building the store over the empty corpus raises, and the empty
    string has been submitted to the service. *)
Lemma build_vectorstore_empty_corpus_raises :
  build_vectorstore Fake.strict_services "" Fake.empty_world =
  (Raised "BadRequestError",
   {| files := []; trace := [EvEmbedDocuments [""]] |}).
Proof. reflexivity. Qed.

(** C3 (amended): for the empty corpus, [build_vectorstore] submits the
    empty string to the embedding service; it raises what the service
    raises; when the service answers, the store holds the empty text as
    its one entry and every retrieval that returns yields documents with
    empty text. *)
Theorem build_vectorstore_empty_corpus (svc : Services) (w : World) :
  trace (snd (build_vectorstore svc "" w)) =
    trace w ++ [EvEmbedDocuments [""]]
  /\ (forall e,
        embed_documents svc (List.length (trace w)) [""] = Raised e ->
        fst (build_vectorstore svc "" w) = Raised e)
  /\ (forall vs,
        embed_documents svc (List.length (trace w)) [""] = Ok vs ->
        exists r,
          fst (build_vectorstore svc "" w) = Ok r
          /\ docstore (vectorstore r) = [{| page_content := "" |}]
          /\ forall q w1 docs w2,
               retriever_invoke svc r q w1 = (Ok docs, w2) ->
               Forall (fun d => page_content d = "") docs).
Proof.
  split; [|split].
  - rewrite build_vectorstore_run. reflexivity.
  - intros e He. rewrite build_vectorstore_run. cbn. now rewrite He.
  - intros vs Hvs.
    destruct (build_vectorstore svc "" w) as [r0 w0] eqn:Hb.
    pose proof Hb as Hb'. rewrite build_vectorstore_run, Hvs in Hb'.
    injection Hb' as <- _. eexists. split; [reflexivity|].
    split; [reflexivity|].
    intros q w1 docs w2 Hq.
    apply (retrieve_single_store svc "" vs q w1). now rewrite Hq.
Qed.

Lemma build_vectorstore_empty_corpus_witness :
  (exists r,
     fst (build_vectorstore Fake.services "" Fake.empty_world) = Ok r
     /\ docstore (vectorstore r) = [{| page_content := "" |}]
     /\ forall q w1 docs w2,
          retriever_invoke Fake.services r q w1 = (Ok docs, w2) ->
          Forall (fun d => page_content d = "") docs)
  /\ fst (build_vectorstore Fake.strict_services "" Fake.empty_world) =
     Raised "BadRequestError".
Proof.
  split.
  - exact (proj2 (proj2 (build_vectorstore_empty_corpus Fake.services
                           Fake.empty_world)) _ eq_refl).
  - exact (proj1 (proj2 (build_vectorstore_empty_corpus
                           Fake.strict_services Fake.empty_world))
             _ eq_refl).
Defined.

(** ** The orchestrator, stage by stage *)

Section Orchestrator.

Variable svc : Services.

Lemma generate_stages (ui : LuciUIController) :
  generate svc ui =
  (style_text <- style_stage svc ui ;;
   source_texts <- content_stage svc ui ;;
   after_extraction svc ui style_text source_texts).
Proof. reflexivity. Qed.

Lemma mapM_get_text_inv (l : list UploadedFile) :
  forall w r w',
    mapM (get_text svc) l w = (r, w') ->
    exists pre,
      trace w' = trace w ++ pre
      /\ Forall (fun ev => is_pdf_load ev = true) pre
      /\ forall texts, r = Ok texts -> Forall2 (extracted_from svc) l texts.
Proof.
  induction l as [|f l IH]; intros w r w' H; cbn [mapM] in H.
  - injection H as <- <-. exists []. rewrite app_nil_r.
    repeat split; [constructor|].
    intros texts [= <-]. constructor.
  - unfold bind in H at 1.
    destruct (get_text svc f w) as [r1 w1] eqn:Hf.
    pose proof Hf as Hrun. rewrite get_text_run in Hrun.
    injection Hrun as Hr1 Hw1.
    assert (Ht1 : trace w1 = trace w ++ [EvPdfLoad (List.length (files w))])
      by now subst w1.
    destruct r1 as [t|e].
    + unfold bind in H.
      destruct (mapM (get_text svc) l w1) as [r2 w2] eqn:Hl.
      destruct (IH _ _ _ Hl) as (pre & Htr & Hpre & Htexts).
      exists (EvPdfLoad (List.length (files w)) :: pre).
      assert (Hw' : trace w' = trace w2)
        by (destruct r2; unfold ret in H; now injection H as _ <-).
      repeat split.
      * rewrite Hw', Htr, Ht1, <- app_assoc. reflexivity.
      * constructor; [reflexivity|assumption].
      * intros texts ->. destruct r2 as [ts|e]; [|discriminate].
        unfold ret in H. injection H as <-.
        constructor; [|now apply Htexts].
        exists w, w1. exact Hf.
    + injection H as <- <-.
      exists [EvPdfLoad (List.length (files w))].
      repeat split; [assumption|constructor; [reflexivity|constructor]|].
      discriminate.
Qed.

Lemma style_stage_inv (ui : LuciUIController) (w w' : World) r :
  style_stage svc ui w = (r, w') ->
  exists pre,
    trace w' = trace w ++ pre
    /\ Forall (fun ev => is_pdf_load ev = true) pre
    /\ forall t, r = Ok t -> style_extracted svc ui t.
Proof.
  unfold style_stage, style_extracted.
  destruct (sample_article ui) as [f|]; intros H.
  - pose proof H as Hrun. rewrite get_text_run in Hrun.
    injection Hrun as _ Hw. exists [EvPdfLoad (List.length (files w))].
    repeat split.
    + now subst w'.
    + constructor; [reflexivity|constructor].
    + intros t ->. exists w, w'. exact H.
  - injection H as <- <-. exists []. rewrite app_nil_r.
    repeat split; [constructor|]. now intros t [= <-].
Qed.

Lemma content_stage_inv (ui : LuciUIController) (w w' : World) r :
  content_stage svc ui w = (r, w') ->
  exists pre,
    trace w' = trace w ++ pre
    /\ Forall (fun ev => is_pdf_load ev = true) pre
    /\ forall texts,
         r = Ok texts -> Forall2 (extracted_from svc) (essays ui) texts.
Proof.
  unfold content_stage. intros H.
  apply mapM_get_text_inv.
  destruct (essays ui); exact H.
Qed.

End Orchestrator.

(** ** Runs in closed form *)

Section ClosedForm.

Variable svc : Services.

Lemma world_eta (w : World) : {| files := files w; trace := trace w |} = w.
Proof. now destruct w. Qed.

Lemma mapM_get_text_run (l : list UploadedFile) :
  forall w,
    mapM (get_text svc) l w =
    (fst (extraction svc l (List.length (trace w)) (List.length (files w))),
     {| files :=
          files w ++
          map closed_file
            (firstn
               (snd (extraction svc l (List.length (trace w))
                       (List.length (files w)))) l);
        trace :=
          trace w ++
          map EvPdfLoad
            (seq (List.length (files w))
               (snd (extraction svc l (List.length (trace w))
                       (List.length (files w))))) |}).
Proof.
  induction l as [|f l IH]; intros w.
  - cbn. unfold ret. rewrite !app_nil_r. now rewrite world_eta.
  - cbn [mapM extraction]. unfold bind at 1. rewrite get_text_run.
    destruct (pdf_load_and_split svc _ _ (on_disk_at_parse svc f))
      as [pages|e];
      cbn [result_map fst snd firstn map seq]; [|reflexivity].
    unfold bind. rewrite IH. cbn [files trace].
    rewrite !length_app. cbn [List.length]. rewrite !Nat.add_1_r.
    destruct (extraction svc l _ _) as [[ts|e] j];
      cbn [fst snd result_map firstn map seq]; unfold ret;
      rewrite <- !app_assoc; reflexivity.
Qed.

Lemma retriever_single_run (text : string) (vs : list vector) (q : string)
      (w : World) :
  retriever_invoke svc (single_store text vs) q w =
  (retrieved svc (List.length (trace w)) text vs q,
   logged [EvEmbedQuery q] w).
Proof. rewrite retriever_invoke_run. reflexivity. Qed.

Lemma length_logged (evs : list Event) (w : World) :
  List.length (trace (logged evs w)) = List.length evs + List.length (trace w).
Proof. cbn. rewrite length_app. apply Nat.add_comm. Qed.

Lemma logged_logged (evs1 evs2 : list Event) (w : World) :
  logged evs2 (logged evs1 w) = logged (evs1 ++ evs2) w.
Proof. unfold logged. cbn. now rewrite app_assoc. Qed.

Lemma prompt_invoke_run (prompt : ChatPromptTemplate)
      (inputs : dict (list Document)) (w : World) :
  prompt_invoke svc prompt inputs w = (prompt_value svc prompt inputs, w).
Proof.
  unfold prompt_invoke, prompt_value.
  destruct prompt as [ps|template]; [|reflexivity].
  destruct (forallb _ (input_variables ps)); reflexivity.
Qed.

Lemma from_template_run (template : string) (w : World) :
  from_template svc template w = (template_of svc template, w).
Proof.
  unfold from_template, template_of.
  destruct (parse_template template None); try reflexivity.
  destruct (library_from_template svc template); reflexivity.
Qed.

Lemma chain_invoke_run (corpus style : string) (vs1 vs2 : list vector)
      (prompt : ChatPromptTemplate) (m : ChatOpenAI) (q : string)
      (w : World) :
  chain_invoke svc (single_store corpus vs1) (single_store style vs2)
    prompt m q w =
  (fst (chain_calls svc corpus style vs1 vs2 prompt m q
          (List.length (trace w))),
   logged
     (snd (chain_calls svc corpus style vs1 vs2 prompt m q
             (List.length (trace w)))) w).
Proof.
  unfold chain_invoke, chain_calls.
  unfold bind at 1. rewrite retriever_single_run.
  destruct (retrieved svc _ corpus vs1 q) as [cdocs|e]; [|reflexivity].
  unfold bind at 1. rewrite retriever_single_run, length_logged.
  cbn [List.length Nat.add].
  destruct (retrieved svc _ style vs2 q) as [sdocs|e];
    [|rewrite logged_logged; reflexivity].
  unfold bind at 1. rewrite prompt_invoke_run.
  destruct (prompt_value svc prompt _) as [bound|e];
    [|rewrite logged_logged; reflexivity].
  unfold bind, ChatOpenAI_invoke, call.
  rewrite logged_logged. cbn [logged trace files app List.length].
  rewrite length_app. cbn [List.length]. rewrite Nat.add_comm.
  cbn [Nat.add fst snd].
  destruct (chat_completions svc _ m _); unfold ret; cbn;
    rewrite <- !app_assoc; reflexivity.
Qed.

Lemma after_extraction_run (ui : LuciUIController) (style : string)
      (texts : list string) (w : World) :
  after_extraction svc ui style texts w =
  (fst (calls_after_extraction svc ui (join " " texts) style
          (List.length (trace w))),
   logged
     (snd (calls_after_extraction svc ui (join " " texts) style
             (List.length (trace w)))) w).
Proof.
  unfold after_extraction, calls_after_extraction.
  unfold bind at 1. rewrite build_vectorstore_run.
  destruct (embed_documents svc _ [join " " texts]) as [vs1|e];
    cbn [result_map]; [|reflexivity].
  unfold bind at 1. rewrite build_vectorstore_run.
  change (log (EvEmbedDocuments [join " " texts]) w)
    with (logged [EvEmbedDocuments [join " " texts]] w).
  rewrite length_logged. cbn [List.length Nat.add].
  destruct (embed_documents svc _ [style]) as [vs2|e];
    cbn [result_map];
    [|unfold log; cbn; rewrite <- !app_assoc; reflexivity].
  change (log (EvEmbedDocuments [style])
            (logged [EvEmbedDocuments [join " " texts]] w))
    with (logged [EvEmbedDocuments [style]]
            (logged [EvEmbedDocuments [join " " texts]] w)).
  rewrite logged_logged. cbn [app].
  unfold bind at 1. rewrite from_template_run.
  destruct (template_of svc (prompt_text ui)) as [prompt|e];
    [|reflexivity].
  unfold bind. rewrite chain_invoke_run.
  rewrite length_logged. cbn [List.length Nat.add].
  destruct (chain_calls svc _ _ vs1 vs2 prompt (chat_model ui) query_text _)
    as [[out|e] evs]; cbn [fst snd]; rewrite logged_logged; cbn [app];
    [|reflexivity].
  unfold st_write, call. cbn. rewrite <- !app_assoc. reflexivity.
Qed.

Lemma content_stage_mapM (ui : LuciUIController) :
  content_stage svc ui = mapM (get_text svc) (essays ui).
Proof. unfold content_stage. now destruct (essays ui). Qed.

Lemma extraction_attempts (l : list UploadedFile) :
  forall t p,
    snd (extraction svc l t p) <= List.length l
    /\ (is_ok (fst (extraction svc l t p)) = true ->
        snd (extraction svc l t p) = List.length l).
Proof.
  induction l as [|f l IH]; intros t p; cbn [extraction].
  - cbn. auto.
  - destruct (pdf_load_and_split svc t p (on_disk_at_parse svc f))
      as [pages|e].
    + specialize (IH (S t) (S p)).
      destruct (extraction svc l (S t) (S p)) as [[ts|e] j];
        cbn [fst snd result_map is_ok List.length] in *; split;
        (lia || (intros H; try discriminate; f_equal; now apply IH)).
    + cbn. split; [lia|discriminate].
Qed.

(** [generate] in closed form. *)
Lemma generate_run (ui : LuciUIController) (w : World) :
  generate svc ui w =
  (fst (fst (run_outcome svc ui (List.length (trace w))
               (List.length (files w)))),
   after_run (uploads ui)
     (snd (fst (run_outcome svc ui (List.length (trace w))
                  (List.length (files w)))))
     (snd (run_outcome svc ui (List.length (trace w))
             (List.length (files w)))) w).
Proof.
  rewrite generate_stages. unfold run_outcome, uploads, style_docs,
    split_texts, style_stage, after_run.
  rewrite content_stage_mapM.
  destruct (sample_article ui) as [f|]; cbn [app].
  - unfold bind at 1. rewrite get_text_run. cbn [extraction].
    destruct (pdf_load_and_split svc _ _ (on_disk_at_parse svc f))
      as [pages|e];
      cbn [result_map]; [|reflexivity].
    unfold bind at 1. rewrite mapM_get_text_run. cbn [files trace].
    rewrite !length_app. cbn [List.length]. rewrite !Nat.add_1_r.
    destruct (extraction svc (essays ui) _ _) as [[ts|e] j];
      cbn [fst snd result_map hd tl firstn map seq].
    + rewrite after_extraction_run. cbn [trace files logged].
      rewrite !length_app, length_map, length_seq. cbn [List.length].
      replace (List.length (trace w) + 1 + j)
        with (S j + List.length (trace w)) by lia.
      destruct (calls_after_extraction svc ui _ _ _) as [r evs].
      cbn [fst snd]. unfold logged.
      cbn [files trace firstn map seq app]. rewrite <- ?app_assoc.
      reflexivity.
    + rewrite app_nil_r, <- !app_assoc. reflexivity.
  - unfold ret at 1. unfold bind at 1.
    unfold bind. rewrite mapM_get_text_run.
    destruct (extraction svc (essays ui) _ _) as [[ts|e] j];
      cbn [fst snd].
    + rewrite after_extraction_run. cbn [trace files logged].
      rewrite !length_app, length_map, length_seq.
      replace (List.length (trace w) + j)
        with (j + List.length (trace w)) by lia.
      destruct (calls_after_extraction svc ui _ _ _) as [r evs].
      cbn [fst snd]. unfold logged.
      cbn [files trace firstn map seq app]. rewrite <- ?app_assoc.
      reflexivity.
    + rewrite app_nil_r. reflexivity.
Qed.

Lemma generate_outcome (ui : LuciUIController) (w w' : World)
      (r : result unit) :
  generate svc ui w = (r, w') ->
  exists j evs,
    run_outcome svc ui (List.length (trace w)) (List.length (files w))
    = (r, j, evs)
    /\ w' = after_run (uploads ui) j evs w.
Proof.
  rewrite generate_run.
  destruct (run_outcome svc ui _ _) as [[r0 j] evs]. cbn [fst snd].
  intros [= <- <-]. now exists j, evs.
Qed.

Lemma extraction_extracted (l : list UploadedFile) :
  forall t p texts,
    fst (extraction svc l t p) = Ok texts ->
    Forall2 (extracted_from svc) l texts.
Proof.
  induction l as [|f l IH]; intros t p texts; cbn [extraction].
  - intros [= <-]. constructor.
  - destruct (pdf_load_and_split svc t p (on_disk_at_parse svc f))
      as [pages|e] eqn:Hf; [|discriminate].
    specialize (IH (S t) (S p)).
    destruct (extraction svc l (S t) (S p)) as [[ts|e] j];
      cbn [fst result_map] in *; [|discriminate].
    intros [= <-]. constructor; [|now apply IH].
    exists (world_at t p). eexists. rewrite get_text_run.
    unfold world_at. cbn [files trace]. rewrite !repeat_length, Hf.
    reflexivity.
Qed.

(** The texts of a run are extracted from its documents, the style
    text first. *)
Lemma split_texts_extracted (ui : LuciUIController) (t p : nat)
      (texts : list string) :
  fst (extraction svc (uploads ui) t p) = Ok texts ->
  style_extracted svc ui (fst (split_texts ui texts))
  /\ Forall2 (extracted_from svc) (essays ui) (snd (split_texts ui texts)).
Proof.
  intros H. apply extraction_extracted in H.
  unfold uploads, style_docs, split_texts, style_extracted in *.
  destruct (sample_article ui) as [f|]; cbn [app fst snd] in *.
  - inversion H; subst. cbn [hd tl]. auto.
  - auto.
Qed.

(** A chat call among the calls after extraction: everything before it
    answered. *)
Lemma calls_after_extraction_chat (ui : LuciUIController)
      (corpus style : string) (t : nat) (m : ChatOpenAI) (p : string) :
  In (EvChat m p) (snd (calls_after_extraction svc ui corpus style t)) ->
  m = chat_model ui
  /\ exists vs1 vs2 prompt context_docs style_docs post,
       embed_documents svc t [corpus] = Ok vs1
       /\ embed_documents svc (1 + t) [style] = Ok vs2
       /\ template_of svc (prompt_text ui) = Ok prompt
       /\ retrieved svc (2 + t) corpus vs1 query_text = Ok context_docs
       /\ retrieved svc (3 + t) style vs2 query_text = Ok style_docs
       /\ prompt_value svc prompt
            [("context", context_docs); ("style", style_docs)] = Ok p
       /\ snd (calls_after_extraction svc ui corpus style t) =
          [EvEmbedDocuments [corpus]; EvEmbedDocuments [style];
           EvEmbedQuery query_text; EvEmbedQuery query_text;
           EvChat m p] ++ post
       /\ (post = []
           /\ (exists e,
                 chat_completions svc (4 + t) m p = Raised e
                 /\ fst (calls_after_extraction svc ui corpus style t)
                    = Raised e)
           \/ exists out,
               post = [EvStWrite out]
               /\ chat_completions svc (4 + t) m p = Ok out
               /\ fst (calls_after_extraction svc ui corpus style t)
                  = Ok tt).
Proof.
  unfold calls_after_extraction.
  destruct (embed_documents svc t [corpus]) as [vs1|e1] eqn:H1;
    [|cbn; intros [[=]|[]]].
  destruct (embed_documents svc (1 + t) [style]) as [vs2|e2] eqn:H2;
    [|cbn; intros [[=]|[[=]|[]]]].
  destruct (template_of svc (prompt_text ui)) as [prompt|e3] eqn:H3;
    [|cbn; intros [[=]|[[=]|[]]]].
  unfold chain_calls.
  destruct (retrieved svc (2 + t) corpus vs1 query_text)
    as [cdocs|e4] eqn:H4;
    [|cbn; intros [[=]|[[=]|[[=]|[]]]]].
  destruct (retrieved svc (1 + (2 + t)) style vs2 query_text)
    as [sdocs|e5] eqn:Hs;
    [|cbn; intros [[=]|[[=]|[[=]|[[=]|[]]]]]].
  destruct (prompt_value svc prompt _) as [bound|e6] eqn:Hp;
    [|cbn; intros [[=]|[[=]|[[=]|[[=]|[]]]]]].
  destruct (chat_completions svc (2 + (2 + t)) (chat_model ui) bound)
    as [out|e7] eqn:Hc; cbn [snd fst app].
  - intros [[=]|[[=]|[[=]|[[=]|[[= <- <-]|[[=]|[]]]]]]].
    split; [reflexivity|].
    exists vs1, vs2, prompt, cdocs, sdocs, [EvStWrite out].
    repeat split; try assumption. right. exists out. auto.
  - intros [[=]|[[=]|[[=]|[[=]|[[= <- <-]|[]]]]]].
    split; [reflexivity|].
    exists vs1, vs2, prompt, cdocs, sdocs, [].
    repeat split; try assumption.
    left. split; [reflexivity|]. exists e7. auto.
Qed.

End ClosedForm.

Section AfterExtraction.

Variable svc : Services.

Lemma trace_log (ev : Event) (w : World) :
  trace (log ev w) = trace w ++ [ev].
Proof. reflexivity. Qed.

Lemma files_log (ev : Event) (w : World) : files (log ev w) = files w.
Proof. reflexivity. Qed.

Lemma bind_inv {A B} (m : M A) (k : A -> M B) (w w' : World)
      (r : result B) :
  bind m k w = (r, w') ->
  (exists a w1, m w = (Ok a, w1) /\ k a w1 = (r, w'))
  \/ (exists e, m w = (Raised e, w') /\ r = Raised e).
Proof.
  unfold bind. destruct (m w) as [[a|e] w1]; intros H.
  - left. now exists a, w1.
  - right. injection H as <- <-. now exists e.
Qed.

Lemma retriever_invoke_inv (text : string) (vs : list vector) (q : string)
      (w w' : World) r :
  retriever_invoke svc (single_store text vs) q w = (r, w') ->
  w' = log (EvEmbedQuery q) w
  /\ forall docs, r = Ok docs ->
       Forall (fun d => page_content d = text) docs.
Proof.
  intros H. split.
  - rewrite retriever_invoke_run in H. now injection H as _ <-.
  - intros docs ->. apply (retrieve_single_store svc text vs q w).
    now rewrite H.
Qed.

Lemma calls_after_extraction_shape (ui : LuciUIController)
      (corpus style : string) (t : nat) :
  exists k p out,
    snd (calls_after_extraction svc ui corpus style t)
    = firstn k (pipeline_calls ui corpus style p out)
    /\ 1 <= k <= 6
    /\ (fst (calls_after_extraction svc ui corpus style t) = Ok tt
        -> k = 6).
Proof.
  unfold calls_after_extraction.
  destruct (embed_documents svc t [corpus]) as [vs1|e1];
    [|exists 1, "", ""; cbn; repeat split; (discriminate || lia)].
  destruct (embed_documents svc (1 + t) [style]) as [vs2|e2];
    [|exists 2, "", ""; cbn; repeat split; (discriminate || lia)].
  destruct (template_of svc (prompt_text ui)) as [prompt|e3];
    [|exists 2, "", ""; cbn; repeat split; (discriminate || lia)].
  unfold chain_calls.
  destruct (retrieved svc (2 + t) corpus vs1 query_text) as [cdocs|e4];
    [|exists 3, "", ""; cbn; repeat split; (discriminate || lia)].
  destruct (retrieved svc (1 + (2 + t)) style vs2 query_text)
    as [sdocs|e5];
    [|exists 4, "", ""; cbn; repeat split; (discriminate || lia)].
  destruct (prompt_value svc prompt _) as [bound|e6];
    [|exists 4, "", ""; cbn; repeat split; (discriminate || lia)].
  destruct (chat_completions svc _ (chat_model ui) bound) as [out|e7].
  - exists 6, bound, out. cbn. repeat split; lia.
  - exists 5, bound, "". cbn. repeat split; (discriminate || lia).
Qed.

(** Every run of the part after extraction logs a non-empty initial
    segment of [pipeline_calls]; it returns exactly when all six calls
    were made. *)
Lemma after_extraction_inv (ui : LuciUIController) (style : string)
      (texts : list string) (w w' : World) (r : result unit) :
  after_extraction svc ui style texts w = (r, w') ->
  exists k p out,
    trace w' =
      trace w ++ firstn k (pipeline_calls ui (join " " texts) style p out)
    /\ 1 <= k <= 6
    /\ (r = Ok tt -> k = 6).
Proof.
  rewrite after_extraction_run. intros [= <- <-].
  destruct (calls_after_extraction_shape ui (join " " texts) style
              (List.length (trace w))) as (k & p & out & Hevs & Hk & Hok).
  exists k, p, out. cbn [logged trace]. rewrite Hevs. auto.
Qed.

End AfterExtraction.

(** ** Whole runs *)

Section WholeRuns.

Variable svc : Services.

(** The shape of every run of [generate]: calls to the parser, then an
    initial segment of [pipeline_calls] on the extracted texts. *)
Lemma generate_inv (ui : LuciUIController) (w w' : World)
      (r : result unit) :
  generate svc ui w = (r, w') ->
  exists pre k style texts p out,
    trace w' =
      trace w ++ pre
        ++ firstn k (pipeline_calls ui (join " " texts) style p out)
    /\ Forall (fun ev => is_pdf_load ev = true) pre
    /\ k <= 6
    /\ (1 <= k ->
        style_extracted svc ui style
        /\ Forall2 (extracted_from svc) (essays ui) texts)
    /\ (r = Ok tt -> k = 6).
Proof.
  rewrite generate_stages. intros H.
  apply bind_inv in H.
  destruct H as [(style & w1 & Hs & H)|(e & Hs & ->)];
    apply style_stage_inv in Hs; destruct Hs as (pre1 & Ht1 & Hp1 & Hst).
  2:{ exists pre1, 0, "", [], "", "". cbn. rewrite app_nil_r.
      repeat split; (assumption || discriminate || lia). }
  specialize (Hst _ eq_refl).
  apply bind_inv in H.
  destruct H as [(texts & w2 & Hc & H)|(e & Hc & ->)];
    apply content_stage_inv in Hc; destruct Hc as (pre2 & Ht2 & Hp2 & Hct).
  2:{ exists (pre1 ++ pre2), 0, "", [], "", "". cbn.
      rewrite app_nil_r, Ht2, Ht1, <- app_assoc.
      repeat split;
        (reflexivity || discriminate || lia || idtac).
      now apply Forall_app. }
  specialize (Hct _ eq_refl).
  apply after_extraction_inv in H.
  destruct H as (k & p & out & Htr & Hk & Hok).
  exists (pre1 ++ pre2), k, style, texts, p, out.
  rewrite Htr, Ht2, Ht1, <- !app_assoc.
  repeat split; (reflexivity || assumption || lia || idtac).
  now apply Forall_app.
Qed.

Lemma bind_ok {A B} (m : M A) (k : A -> M B) (w w1 : World) (a : A) :
  m w = (Ok a, w1) -> bind m k w = k a w1.
Proof. unfold bind. now intros ->. Qed.

Lemma lookup_documents_total (docs : list Document) (hits : list Z) :
  Forall (fun i => i = (-1)%Z
                   \/ (0 <= i < Z.of_nat (List.length docs))%Z) hits ->
  exists found, lookup_documents docs hits = Ok found.
Proof.
  induction 1 as [|i hits Hi _ [found IH]]; cbn [lookup_documents].
  - now exists [].
  - destruct (Z.eqb_spec i (-1)); [now exists found|].
    destruct Hi as [Hi|Hi]; [contradiction|].
    destruct (Z.ltb_spec i 0); [lia|].
    destruct (nth_error docs (Z.to_nat i)) as [d|] eqn:Hd.
    + rewrite IH. now exists (d :: found).
    + apply nth_error_None in Hd. lia.
Qed.

Hypothesis svc_dependable : dependable svc.

Lemma get_text_total (f : UploadedFile) (w : World) :
  exists t w1, get_text svc f w = (Ok t, w1).
Proof.
  rewrite get_text_run.
  destruct svc_dependable as (Hpdf & _).
  specialize (Hpdf (List.length (trace w)) (List.length (files w))
                (on_disk_at_parse svc f)).
  destruct (pdf_load_and_split svc _ _ _) as [pages|e]; [|discriminate].
  cbn. eauto.
Qed.

Lemma mapM_get_text_total (l : list UploadedFile) :
  forall w, exists ts w1, mapM (get_text svc) l w = (Ok ts, w1).
Proof.
  induction l as [|f l IH]; intros w; cbn [mapM].
  - unfold ret. eauto.
  - destruct (get_text_total f w) as (t & w1 & Hf).
    destruct (IH w1) as (ts & w2 & Hl).
    rewrite (bind_ok _ _ _ _ _ Hf), (bind_ok _ _ _ _ _ Hl).
    unfold ret. eauto.
Qed.

Lemma build_vectorstore_total (text : string) (w : World) :
  exists v,
    build_vectorstore svc text w =
    (Ok (single_store text [v]), log (EvEmbedDocuments [text]) w).
Proof.
  rewrite build_vectorstore_run.
  destruct svc_dependable as (_ & Hemb & _).
  destruct (Hemb (List.length (trace w)) [text]) as (vs & -> & Hlen).
  destruct vs as [|v [|? ?]]; try discriminate. now exists v.
Qed.

Lemma retriever_invoke_total (text : string) (v : vector) (q : string)
      (w : World) :
  exists docs,
    retriever_invoke svc (single_store text [v]) q w =
    (Ok docs, log (EvEmbedQuery q) w).
Proof.
  rewrite retriever_invoke_run.
  destruct svc_dependable as (_ & _ & Hq & Hsearch & _).
  specialize (Hq (List.length (trace w)) q).
  destruct (embed_query svc _ _) as [qv|e]; [|discriminate].
  destruct (lookup_documents_total
              (docstore (vectorstore (single_store text [v])))
              (index_search svc (index (vectorstore (single_store text [v])))
                 qv (search_k (single_store text [v]))))
    as [docs ->]; [|now exists docs].
  exact (Hsearch [v] qv _).
Qed.

Lemma has_chain_key (n : string) (c s : list Document) :
  existsb (String.eqb n) chain_keys = true ->
  has_key [("context", c); ("style", s)] n = true.
Proof.
  unfold has_key, chain_keys. cbn [existsb dict_get].
  rewrite (String.eqb_sym n "context"), (String.eqb_sym n "style").
  destruct ("context" =? n)%string; [reflexivity|].
  destruct ("style" =? n)%string; [reflexivity|discriminate].
Qed.

Lemma chain_invoke_total (text1 text2 : string) (v1 v2 : vector)
      (ps : list piece) (m : ChatOpenAI) (q : string) (w : World) :
  forallb (fun n => existsb (String.eqb n) chain_keys)
    (input_variables ps) = true ->
  exists reply w',
    chain_invoke svc (single_store text1 [v1]) (single_store text2 [v2])
      (FString ps) m q w = (Ok reply, w').
Proof.
  intros Hb. unfold chain_invoke.
  destruct (retriever_invoke_total text1 v1 q w) as (cdocs & Hr1).
  rewrite (bind_ok _ _ _ _ _ Hr1).
  destruct (retriever_invoke_total text2 v2 q (log (EvEmbedQuery q) w))
    as (sdocs & Hr2).
  rewrite (bind_ok _ _ _ _ _ Hr2).
  unfold prompt_invoke.
  rewrite (proj2 (forallb_forall _ _)).
  2:{ intros n Hn. apply has_chain_key.
      exact (proj1 (forallb_forall _ _) Hb n Hn). }
  rewrite (bind_ok (ret _) _ _ _ _ eq_refl).
  unfold ChatOpenAI_invoke, call, bind, ret.
  destruct svc_dependable as (_ & _ & _ & _ & Hchat).
  match goal with
  | |- context [chat_completions svc ?t ?m ?p] =>
      specialize (Hchat t m p);
      destruct (chat_completions svc t m p) as [reply|e];
      [|discriminate]
  end.
  eauto.
Qed.

(** With dependable collaborators and a template that binds, every run
    returns. *)
Lemma generate_total (ui : LuciUIController) (w : World) :
  template_binds (prompt_text ui) = true ->
  exists w', generate svc ui w = (Ok tt, w').
Proof.
  unfold template_binds. intros Hb.
  destruct (parse_template (prompt_text ui) None) as [ps| |] eqn:Hps;
    try discriminate.
  rewrite generate_stages.
  assert (Hs : exists s w1, style_stage svc ui w = (Ok s, w1)).
  { unfold style_stage. destruct (sample_article ui).
    - apply get_text_total.
    - unfold ret. eauto. }
  destruct Hs as (s & w1 & Hs).
  assert (Hc : exists ts w2, content_stage svc ui w1 = (Ok ts, w2)).
  { unfold content_stage. destruct (essays ui) eqn:He.
    - unfold ret. eauto.
    - apply mapM_get_text_total. }
  destruct Hc as (ts & w2 & Hc).
  rewrite (bind_ok _ _ _ _ _ Hs), (bind_ok _ _ _ _ _ Hc).
  unfold after_extraction.
  destruct (build_vectorstore_total (join " " ts) w2) as (v1 & H1).
  rewrite (bind_ok _ _ _ _ _ H1).
  destruct (build_vectorstore_total s (log (EvEmbedDocuments [join " " ts]) w2))
    as (v2 & H2).
  rewrite (bind_ok _ _ _ _ _ H2).
  unfold from_template. rewrite Hps.
  rewrite (bind_ok (ret (FString ps)) _ _ _ _ eq_refl).
  destruct (chain_invoke_total (join " " ts) s v1 v2 ps (chat_model ui)
              query_text
              (log (EvEmbedDocuments [s])
                 (log (EvEmbedDocuments [join " " ts]) w2)) Hb)
    as (reply & w3 & Hchain).
  rewrite (bind_ok _ _ _ _ _ Hchain).
  unfold st_write, call. eauto.
Qed.

End WholeRuns.

(** The first call that is not a call to the parser is determined by the
    trace. *)
Lemma first_call_unique (pre1 pre2 : list Event) (a b : Event)
      (r1 r2 : list Event) :
  Forall (fun ev => is_pdf_load ev = true) pre1 ->
  Forall (fun ev => is_pdf_load ev = true) pre2 ->
  is_pdf_load a = false -> is_pdf_load b = false ->
  pre1 ++ a :: r1 = pre2 ++ b :: r2 ->
  pre1 = pre2 /\ a = b /\ r1 = r2.
Proof.
  intros H1. revert pre2.
  induction H1 as [|x pre1 Hx _ IH]; intros pre2 H2 Ha Hb E.
  - destruct H2 as [|y pre2 Hy _]; cbn in E.
    + injection E as <- <-. auto.
    + injection E as <- _. congruence.
  - destruct H2 as [|y pre2 Hy H2]; cbn in E.
    + injection E as -> _. congruence.
    + injection E as <- E.
      destruct (IH pre2 H2 Ha Hb E) as (-> & -> & ->). auto.
Qed.

Lemma in_pdf_loads (pre : list Event) (ev : Event) :
  Forall (fun ev => is_pdf_load ev = true) pre ->
  In ev pre -> is_pdf_load ev = true.
Proof. intros H Hin. exact (proj1 (Forall_forall _ _) H _ Hin). Qed.

Lemma pdf_loads_are_pdf_loads (p j : nat) :
  Forall (fun ev => is_pdf_load ev = true) (map EvPdfLoad (seq p j)).
Proof. apply Forall_forall. intros ev Hin.
  apply in_map_iff in Hin. now destruct Hin as (n & <- & _).
Qed.

Lemma dependable_fake_services : dependable Fake.services.
Proof.
  repeat split.
  - intros t texts. exists (map Fake.embed_one texts).
    split; [reflexivity|apply length_map].
  - intros vs q k. cbn. unfold Fake.search.
    apply Forall_app. split.
    + apply Forall_forall. intros i Hi.
      apply in_map_iff in Hi. destruct Hi as (n & <- & Hn).
      apply in_seq in Hn. right. lia.
    + apply Forall_forall. intros i Hi.
      apply repeat_spec in Hi. now left.
Qed.

(** ** Orchestrator: empty content *)

(** C1, as stated, fails: with no style document and no content
    documents the run does not stop before generation; it embeds the
    empty string twice, calls the chat model and writes its answer. *)
Lemma no_content_run_generates :
  generate Fake.services no_content_ui Fake.empty_world =
  (Ok tt,
   {| files := [];
      trace :=
        [EvEmbedDocuments [""]; EvEmbedDocuments [""];
         EvEmbedQuery "Please write an article in this style";
         EvEmbedQuery "Please write an article in this style";
         EvChat {| model_name := "gpt-4"; model_temperature := None |}
           "Style: [<>]. Content: [<>].";
         EvStWrite "Article by gpt-4: Style: [<>]. Content: [<>]."] |}).
Proof. reflexivity. Qed.

(** C1 (amended): when no content document is uploaded the pipeline
    raises no error of its own.  With collaborators that answer and a
    template that binds, the run returns: after the extraction of the
    style document it builds the content index over the empty string,
    builds the style index, retrieves from both, calls the generation
    service and writes the answer. *)
Theorem generate_without_content
        (svc : Services) (ui : LuciUIController) (w : World) :
  dependable svc ->
  essays ui = [] ->
  template_binds (prompt_text ui) = true ->
  exists w' pre style p out,
    generate svc ui w = (Ok tt, w')
    /\ trace w' = trace w ++ pre ++ pipeline_calls ui "" style p out
    /\ Forall (fun ev => is_pdf_load ev = true) pre
    /\ style_extracted svc ui style.
Proof.
  intros Hdep Hess Hbinds.
  destruct (generate_total svc Hdep ui w Hbinds) as [w' Hrun].
  destruct (generate_inv svc ui w w' (Ok tt) Hrun)
    as (pre & k & style & texts & p & out & Htr & Hpre & _ & Hext & Hk).
  specialize (Hk eq_refl). subst k.
  destruct Hext as [Hst Htexts]; [lia|].
  rewrite Hess in Htexts. inversion Htexts; subst texts.
  exists w', pre, style, p, out. auto.
Qed.

Lemma generate_without_content_witness :
  exists w' pre style p out,
    generate Fake.services no_content_ui Fake.empty_world = (Ok tt, w')
    /\ trace w' =
       trace Fake.empty_world ++ pre
         ++ pipeline_calls no_content_ui "" style p out
    /\ Forall (fun ev => is_pdf_load ev = true) pre
    /\ style_extracted Fake.services no_content_ui style.
Proof.
  exact (generate_without_content Fake.services no_content_ui
           Fake.empty_world dependable_fake_services eq_refl eq_refl).
Defined.

(** ** Orchestrator: the model identifier *)


Lemma selectbox_in_options (options : list string) (choice : nat) :
  options <> [] -> In (selectbox options choice) options.
Proof.
  intros Hne. unfold selectbox.
  destruct (Nat.lt_ge_cases choice (List.length options)) as [Hlt|Hge].
  - now apply nth_In.
  - rewrite nth_overflow by assumption.
    destruct options; [contradiction|]. now left.
Qed.



(** ** Orchestrator: two indexes, then generation *)

Lemma chat_in_calls (ui : LuciUIController) (corpus style p out : string)
      (k : nat) (m : ChatOpenAI) (q : string) :
  k <= 6 ->
  In (EvChat m q) (firstn k (pipeline_calls ui corpus style p out)) ->
  m = chat_model ui /\ q = p /\ (k = 5 \/ k = 6).
Proof.
  intros Hk Hin.
  destruct k as [|[|[|[|[|[|[|k]]]]]]]; try lia; cbn in Hin;
    repeat (destruct Hin as [Hin|Hin]; try discriminate);
    try contradiction;
    injection Hin as <- <-; auto.
Qed.

(** C9: in every run that reaches the generation call, exactly two
    indexes have been built before it, each from a one-element list of
    texts: the first from the content corpus alone, the second from the
    style corpus alone; both retrievals follow, and only then the chat
    model is called.  The two stores stay apart: the documents bound to
    the context field were retrieved from the store that holds the
    content corpus and nothing else, those bound to the style field
    from the store that holds the style corpus and nothing else. *)
Theorem generation_after_two_separate_indexes
        (svc : Services) (ui : LuciUIController) (w w' : World)
        (r : result unit) (news : list Event) (m : ChatOpenAI)
        (p : string) :
  generate svc ui w = (r, w') ->
  trace w' = trace w ++ news ->
  In (EvChat m p) news ->
  exists pre post style_text source_texts,
    style_extracted svc ui style_text
    /\ Forall2 (extracted_from svc) (essays ui) source_texts
    /\ Forall (fun ev => is_pdf_load ev = true) pre
    /\ news =
       pre ++
       [EvEmbedDocuments [join " " source_texts];
        EvEmbedDocuments [style_text];
        EvEmbedQuery query_text; EvEmbedQuery query_text;
        EvChat m p] ++ post
    /\ (post = [] \/ exists out, post = [EvStWrite out])
    /\ exists vs1 vs2 context_docs style_docs prompt wa wb wc wd,
        embed_documents svc (List.length (trace w ++ pre))
          [join " " source_texts] = Ok vs1
        /\ embed_documents svc (1 + List.length (trace w ++ pre))
             [style_text] = Ok vs2
        /\ retriever_invoke svc
             (as_retriever
                {| docstore := [{| page_content := join " " source_texts |}];
                   index := vs1 |})
             query_text wa = (Ok context_docs, wb)
        /\ retriever_invoke svc
             (as_retriever
                {| docstore := [{| page_content := style_text |}];
                   index := vs2 |})
             query_text wc = (Ok style_docs, wd)
        /\ (forall w0,
              from_template svc (prompt_text ui) w0 = (Ok prompt, w0))
        /\ (forall w0,
              prompt_invoke svc prompt
                [("context", context_docs); ("style", style_docs)] w0
              = (Ok p, w0)).
Proof.
  intros Hrun Hnews Hin.
  destruct (generate_outcome svc ui w w' r Hrun) as (j & evs & Hout & ->).
  cbn [after_run trace] in Hnews. apply app_inv_head in Hnews. subst news.
  unfold run_outcome in Hout.
  pose proof (split_texts_extracted svc ui (List.length (trace w))
                (List.length (files w))) as Hext.
  destruct (extraction svc (uploads ui) _ _) as [[texts|e] j0];
    cbn [fst] in Hext.
  2:{ injection Hout as _ _ <-. rewrite app_nil_r in Hin.
      apply (in_pdf_loads _ _ (pdf_loads_are_pdf_loads _ _)) in Hin.
      discriminate. }
  specialize (Hext texts eq_refl).
  destruct (split_texts ui texts) as [style sources]. cbn [fst snd] in Hext.
  destruct Hext as [Hst Hsrc].
  pose proof (calls_after_extraction_chat svc ui (join " " sources) style
                (j0 + List.length (trace w)) m p) as Hchat.
  destruct (calls_after_extraction svc ui _ _ _) as [r0 evs0].
  injection Hout as _ <- <-. cbn [snd fst] in Hchat.
  apply in_app_or in Hin. destruct Hin as [Hin|Hin].
  { apply (in_pdf_loads _ _ (pdf_loads_are_pdf_loads _ _)) in Hin.
    discriminate. }
  destruct (Hchat Hin)
    as (_ & vs1 & vs2 & prompt & cdocs & sdocs & post
        & H1 & H2 & H3 & H4 & H5 & H6 & Hevs & Hpost).
  exists (map EvPdfLoad (seq (List.length (files w)) j0)), post,
    style, sources.
  repeat split; try assumption.
  - apply pdf_loads_are_pdf_loads.
  - now rewrite Hevs.
  - destruct Hpost as [[-> _]|(out & -> & _)]; eauto.
  - assert (Ht : List.length
                   (trace w ++
                    map EvPdfLoad (seq (List.length (files w)) j0))
                 = j0 + List.length (trace w))
      by (rewrite length_app, length_map, length_seq; lia).
    rewrite Ht.
    exists vs1, vs2, cdocs, sdocs, prompt,
      (world_at (2 + (j0 + List.length (trace w))) 0),
      (logged [EvEmbedQuery query_text]
         (world_at (2 + (j0 + List.length (trace w))) 0)),
      (world_at (3 + (j0 + List.length (trace w))) 0),
      (logged [EvEmbedQuery query_text]
         (world_at (3 + (j0 + List.length (trace w))) 0)).
    repeat split; try assumption.
    + change (as_retriever _) with (single_store (join " " sources) vs1).
      rewrite retriever_single_run. unfold world_at at 1.
      cbn [trace]. rewrite repeat_length. now rewrite H4.
    + change (as_retriever _) with (single_store style vs2).
      rewrite retriever_single_run. unfold world_at at 1.
      cbn [trace]. rewrite repeat_length. now rewrite H5.
    + intros w0. rewrite from_template_run. now rewrite H3.
    + intros w0. rewrite prompt_invoke_run. now rewrite H6.
Qed.

Lemma abc_run :
  generate Fake.services abc_ui Fake.empty_world =
  (Ok tt, {| files := abc_files; trace := abc_calls |}).
Proof. vm_compute. reflexivity. Qed.

Lemma chat_in_abc_calls : In (EvChat gpt4 abc_prompt) abc_calls.
Proof. unfold abc_calls. cbn [In]. tauto. Qed.

Lemma generation_after_two_separate_indexes_witness :
  exists pre post style_text source_texts,
    style_extracted Fake.services abc_ui style_text
    /\ Forall2 (extracted_from Fake.services) (essays abc_ui) source_texts
    /\ Forall (fun ev => is_pdf_load ev = true) pre
    /\ abc_calls =
       pre ++
       [EvEmbedDocuments [join " " source_texts];
        EvEmbedDocuments [style_text];
        EvEmbedQuery query_text; EvEmbedQuery query_text;
        EvChat gpt4 abc_prompt] ++ post
    /\ (post = [] \/ exists out, post = [EvStWrite out])
    /\ exists vs1 vs2 context_docs style_docs prompt wa wb wc wd,
        embed_documents Fake.services
          (List.length (trace Fake.empty_world ++ pre))
          [join " " source_texts] = Ok vs1
        /\ embed_documents Fake.services
             (1 + List.length (trace Fake.empty_world ++ pre))
             [style_text] = Ok vs2
        /\ retriever_invoke Fake.services
             (as_retriever
                {| docstore := [{| page_content := join " " source_texts |}];
                   index := vs1 |})
             query_text wa = (Ok context_docs, wb)
        /\ retriever_invoke Fake.services
             (as_retriever
                {| docstore := [{| page_content := style_text |}];
                   index := vs2 |})
             query_text wc = (Ok style_docs, wd)
        /\ (forall w0,
              from_template Fake.services (prompt_text abc_ui) w0
              = (Ok prompt, w0))
        /\ (forall w0,
              prompt_invoke Fake.services prompt
                [("context", context_docs); ("style", style_docs)] w0
              = (Ok abc_prompt, w0)).
Proof.
  exact (generation_after_two_separate_indexes Fake.services abc_ui
           Fake.empty_world _ _ abc_calls gpt4 abc_prompt
           abc_run eq_refl chat_in_abc_calls).
Defined.

(** ** Orchestrator: the content corpus *)

(** C6: the corpus handed to the content index, the first text the run
    embeds, is the join of the extracted texts in upload order: the i-th
    text of the join was extracted from the i-th uploaded document. *)
Theorem content_corpus_in_upload_order
        (svc : Services) (ui : LuciUIController) (w w' : World)
        (r : result unit) (pre post : list Event) (l : list string) :
  generate svc ui w = (r, w') ->
  trace w' = trace w ++ pre ++ EvEmbedDocuments l :: post ->
  Forall (fun ev => is_pdf_load ev = true) pre ->
  exists texts,
    Forall2 (extracted_from svc) (essays ui) texts
    /\ l = [join " " texts].
Proof.
  intros Hrun Htrace Hpre.
  destruct (generate_inv svc ui w w' r Hrun)
    as (pre0 & k & style & texts & p0 & out & Htr & Hpre0 & _ & Hext & _).
  rewrite Htrace in Htr. apply app_inv_head in Htr.
  destruct k as [|k].
  - cbn in Htr. rewrite app_nil_r in Htr. subst pre0.
    apply Forall_app in Hpre0. destruct Hpre0 as [_ Hbad].
    inversion Hbad; discriminate.
  - cbn in Htr.
    apply first_call_unique in Htr; try assumption; try reflexivity.
    destruct Htr as (_ & [= ->] & _).
    destruct Hext as [_ Htexts]; [lia|].
    now exists texts.
Qed.

Lemma content_corpus_in_upload_order_witness :
  exists texts,
    Forall2 (extracted_from Fake.services)
      [Fake.upload "A"; Fake.upload "B"; Fake.upload "C"] texts
    /\ ["A B C"] = [join " " texts].
Proof.
  apply (content_corpus_in_upload_order Fake.services abc_ui
           Fake.empty_world _ _
           [EvPdfLoad 0; EvPdfLoad 1; EvPdfLoad 2; EvPdfLoad 3] _ _
           abc_run eq_refl).
  repeat constructor.
Defined.

Lemma append_assoc (a b c : string) :
  ((a ++ b) ++ c = a ++ (b ++ c))%string.
Proof.
  induction a as [|x a IH]; cbn; [reflexivity|]. now rewrite IH.
Qed.

Lemma append_nil_r (a : string) : (a ++ "")%string = a.
Proof.
  induction a as [|x a IH]; cbn; [reflexivity|]. now rewrite IH.
Qed.

(** C7, as stated, fails: the separator is a bare space, which occurs
    inside texts.  One document "a b" and two documents "a", "b" give
    the same content corpus. *)
Lemma space_separator_hides_boundaries :
  embedded_texts
    (trace (snd (generate Fake.services (essays_ui [Fake.upload "a b"])
                   Fake.empty_world))) = [["a b"]; [""]]
  /\ embedded_texts
       (trace (snd (generate Fake.services
                      (essays_ui [Fake.upload "a"; Fake.upload "b"])
                      Fake.empty_world))) = [["a b"]; [""]].
Proof. split; vm_compute; reflexivity. Qed.

Lemma join_space_merge (a b : string) (rest : list string) :
  join " " (a :: b :: rest) = join " " ((a ++ " " ++ b)%string :: rest).
Proof.
  destruct rest as [|c rest]; cbn [join]; [reflexivity|].
  now rewrite !append_assoc.
Qed.

Lemma join_cons (sep a b : string) (l : list string) :
  join sep (a :: b :: l) = (a ++ sep ++ join sep (b :: l))%string.
Proof. reflexivity. Qed.

(** Two adjacent texts and the one text made of them with a space in
    between give the same join. *)
Lemma join_merge_at (i : nat) :
  forall texts,
    S i < List.length texts ->
    join " " texts =
    join " " (firstn i texts
                ++ (nth i texts "" ++ " " ++ nth (S i) texts "")%string
                :: skipn (S (S i)) texts).
Proof.
  induction i as [|i IH]; intros texts Hlen.
  - destruct texts as [|a [|b rest]]; cbn in Hlen; try lia.
    apply join_space_merge.
  - destruct texts as [|a texts]; cbn in Hlen; [lia|].
    assert (Hi : S i < List.length texts) by lia.
    specialize (IH texts Hi).
    change (firstn (S i) (a :: texts)) with (a :: firstn i texts).
    change (nth (S i) (a :: texts) "") with (nth i texts "").
    change (nth (S (S i)) (a :: texts) "") with (nth (S i) texts "").
    change (skipn (S (S (S i))) (a :: texts))
      with (skipn (S (S i)) texts).
    cbn [app].
    remember (firstn i texts
                ++ (nth i texts "" ++ " " ++ nth (S i) texts "")%string
                :: skipn (S (S i)) texts) as m eqn:Hm.
    destruct texts as [|b texts]; [cbn in Hi; lia|].
    destruct m as [|c l];
      [destruct (firstn i (b :: texts)); discriminate Hm|].
    rewrite !join_cons. now rewrite IH.
Qed.

(** C7 (amended): the content corpus, the first text the run embeds, is
    the texts extracted from the uploaded documents, one per document
    and in upload order, joined with a single space.  A space can occur
    inside a text, and the corpus does not tell a document boundary from
    such a space: with any two adjacent texts replaced by the one text
    made of them with a space in between, the corpus is the same. *)
Theorem content_corpus_joined_with_space
        (svc : Services) (ui : LuciUIController) (w w' : World)
        (r : result unit) (pre post : list Event) (l : list string) :
  generate svc ui w = (r, w') ->
  trace w' = trace w ++ pre ++ EvEmbedDocuments l :: post ->
  Forall (fun ev => is_pdf_load ev = true) pre ->
  exists texts,
    Forall2 (extracted_from svc) (essays ui) texts
    /\ l = [join " " texts]
    /\ forall i,
         S i < List.length texts ->
         l = [join " "
                (firstn i texts
                   ++ (nth i texts "" ++ " " ++ nth (S i) texts "")%string
                   :: skipn (S (S i)) texts)].
Proof.
  intros Hrun Htrace Hpre.
  destruct (generate_inv svc ui w w' r Hrun)
    as (pre0 & k & style & texts & p0 & out & Htr & Hpre0 & _ & Hext & _).
  rewrite Htrace in Htr. apply app_inv_head in Htr.
  destruct k as [|k]; cbn in Htr.
  - rewrite app_nil_r in Htr. subst pre0.
    apply Forall_app in Hpre0. destruct Hpre0 as [_ Hbad].
    inversion Hbad; discriminate.
  - apply first_call_unique in Htr; try assumption; try reflexivity.
    destruct Htr as (_ & [= ->] & _).
    destruct Hext as [_ Htexts]; [lia|].
    exists texts. split; [assumption|]. split; [reflexivity|].
    intros i Hi. now rewrite <- join_merge_at.
Qed.

Lemma two_essays_run :
  generate Fake.services (essays_ui [Fake.upload "a"; Fake.upload "b"])
    Fake.empty_world =
  (Ok tt,
   {| files := [closed_file (Fake.upload "a"); closed_file (Fake.upload "b")];
      trace := ab_calls 0 |}).
Proof. vm_compute. reflexivity. Qed.

Lemma content_corpus_joined_with_space_witness :
  exists texts,
    Forall2 (extracted_from Fake.services)
      [Fake.upload "a"; Fake.upload "b"] texts
    /\ ["a b"] = [join " " texts]
    /\ forall i,
         S i < List.length texts ->
         ["a b"] =
         [join " "
            (firstn i texts
               ++ (nth i texts "" ++ " " ++ nth (S i) texts "")%string
               :: skipn (S (S i)) texts)].
Proof.
  apply (content_corpus_joined_with_space Fake.services
           (essays_ui [Fake.upload "a"; Fake.upload "b"])
           Fake.empty_world _ _ [EvPdfLoad 0; EvPdfLoad 1] _ _
           two_essays_run eq_refl).
  repeat constructor.
Defined.

(** ** Orchestrator: the sampling temperature *)

(** C8 fails on the code: the temperature read from the slider is never
    handed to the chat model.  A run is the same whatever the
    temperature of the page is, and every chat request of a run carries
    the selected identifier and no temperature. *)
Theorem chat_request_ignores_temperature
        (svc : Services) (ui : LuciUIController) (w : World) :
  (forall t, generate svc (with_temperature t ui) w = generate svc ui w)
  /\ forall r w' news m p,
       generate svc ui w = (r, w') ->
       trace w' = trace w ++ news ->
       In (EvChat m p) news ->
       model_name m = selected_model ui /\ model_temperature m = None.
Proof.
  split; [reflexivity|].
  intros r w' news m p Hrun Hnews Hin.
  destruct (generate_inv svc ui w w' r Hrun)
    as (pre & k & style & texts & p0 & out & Htr & Hpre & Hk6 & _).
  rewrite Hnews in Htr. apply app_inv_head in Htr. subst news.
  apply in_app_or in Hin. destruct Hin as [Hin|Hin].
  { apply (in_pdf_loads _ _ Hpre) in Hin. discriminate. }
  destruct (chat_in_calls _ _ _ _ _ _ _ _ Hk6 Hin) as (-> & _).
  split; reflexivity.
Qed.

(** At temperature 0 the run of [abc_ui] is the run at temperature 1,
    and its chat request has no temperature. *)
Lemma chat_request_ignores_temperature_witness :
  generate Fake.services (with_temperature 1 abc_ui) Fake.empty_world
  = generate Fake.services abc_ui Fake.empty_world
  /\ model_name {| model_name := "gpt-4"; model_temperature := None |}
     = "gpt-4"
  /\ model_temperature
       {| model_name := "gpt-4"; model_temperature := None |} = None.
Proof.
  split.
  - exact (proj1 (chat_request_ignores_temperature Fake.services abc_ui
                    Fake.empty_world) 1%Q).
  - apply (proj2 (chat_request_ignores_temperature Fake.services abc_ui
                    Fake.empty_world) _ _ _ _ abc_prompt
             abc_run eq_refl chat_in_abc_calls).
Defined.

(** ** Document Extractor: what the parser is given and what comes back *)

(** X1: [get_text] calls the parser once, on a path no earlier file has.
    The payload has been written but not flushed: what the parser finds
    on disk is the whole payload when it is larger than the write
    buffer, and an empty file when it fits into the buffer.  [get_text]
    returns the page contents joined without separator and raises what
    the parser raises. *)
Theorem get_text_parses_open_file
        (svc : Services) (f : UploadedFile) (w : World) :
  fst (get_text svc f w) =
    result_map (join "")
      (pdf_load_and_split svc (List.length (trace w))
         (List.length (files w))
         (if (List.length (getvalue f) <=? buffer_size svc)%nat
          then []
          else getvalue f))
  /\ trace (snd (get_text svc f w)) =
     trace w ++ [EvPdfLoad (List.length (files w))].
Proof. rewrite get_text_run. split; reflexivity. Qed.

Lemma length_append (a b : string) :
  String.length (a ++ b) = String.length a + String.length b.
Proof.
  induction a as [|c a IH]; cbn; [reflexivity|]. now rewrite IH.
Qed.

Lemma join_length (sep : string) (l : list string) :
  String.length (join sep l) =
  list_sum (map String.length l)
  + String.length sep * (List.length l - 1).
Proof.
  induction l as [|s l IH]; [cbn; lia|].
  destruct l as [|s' l].
  - cbn. lia.
  - change (join sep (s :: s' :: l))
      with (s ++ sep ++ join sep (s' :: l))%string.
    rewrite !length_append, IH. cbn [map list_sum List.length].
    rewrite !Nat.sub_succ, !Nat.sub_0_r, Nat.mul_succ_r.
    unfold list_sum. cbn [fold_right]. lia.
Qed.

(** X2: nothing is put between the pages: the length of the extracted
    text is the sum of the lengths of the page contents; a document
    without pages gives the empty text, not an error. *)
Theorem extracted_text_length
        (svc : Services) (f : UploadedFile) (w : World)
        (pages : list string) :
  pdf_load_and_split svc (List.length (trace w)) (List.length (files w))
    (on_disk_at_parse svc f) = Ok pages ->
  exists t,
    fst (get_text svc f w) = Ok t
    /\ String.length t = list_sum (map String.length pages)
    /\ (pages = [] -> t = "").
Proof.
  intros H. exists (join "" pages). rewrite get_text_run.
  rewrite H. repeat split.
  - rewrite join_length. cbn. lia.
  - now intros ->.
Qed.

Lemma page_upload_parsed :
  pdf_load_and_split Fake.services 0 0
    (on_disk_at_parse Fake.services (Fake.upload "Page")) = Ok ["Page"].
Proof. vm_compute. reflexivity. Qed.

Lemma extracted_text_length_witness :
  exists t,
    fst (get_text Fake.services (Fake.upload "Page") Fake.empty_world)
    = Ok t
    /\ String.length t = list_sum (map String.length ["Page"])
    /\ (["Page"] = [] -> t = "").
Proof.
  exact (extracted_text_length Fake.services (Fake.upload "Page")
           Fake.empty_world ["Page"] page_upload_parsed).
Defined.

(** ** LuciUIController: what the page hands to the pipeline *)

(** X3: the temperature the page stores lies between the bounds of the
    slider, 0 and 1. *)
Theorem setup_ui_temperature_in_range (wd : Widgets) :
  (0 <= temperature (setup_ui wd) <= 1)%Q.
Proof.
  cbn [setup_ui temperature]. unfold slider.
  destruct (Qle_bool (temperature_slider wd) 0) eqn:Hlo.
  - split; [apply Qle_refl|discriminate].
  - destruct (Qle_bool 1 (temperature_slider wd)) eqn:Hhi.
    + split; [discriminate|apply Qle_refl].
    + split; apply Qlt_le_weak, Qnot_le_lt; intros H;
        apply Qle_bool_iff in H; congruence.
Qed.

(** ** Facts about the closed form *)

Section OutcomeFacts.

Variable svc : Services.







Lemma extraction_raises (l : list UploadedFile) :
  forall t p e,
    fst (extraction svc l t p) = Raised e ->
    exists f t' p',
      In f l
      /\ pdf_load_and_split svc t' p' (on_disk_at_parse svc f) = Raised e.
Proof.
  induction l as [|f l IH]; intros t p e; cbn [extraction];
    [discriminate|].
  destruct (pdf_load_and_split svc t p (on_disk_at_parse svc f))
    as [pages|e1] eqn:Hf.
  - specialize (IH (S t) (S p) e).
    destruct (extraction svc l (S t) (S p)) as [[ts|e2] j];
      cbn [fst result_map] in *; [discriminate|].
    intros H. destruct (IH H) as (f' & t' & p' & Hin & Hr).
    exists f', t', p'. split; [now right|assumption].
  - cbn [fst]. intros [= <-]. exists f, t, p. split; [now left|assumption].
Qed.

(** The parser answered for every document before the last one it was
    called on, and for the last one too when extraction succeeded. *)
Lemma extraction_answered (l : list UploadedFile) :
  forall t p i f,
    nth_error l i = Some f ->
    S i < snd (extraction svc l t p)
    \/ (i < snd (extraction svc l t p)
        /\ is_ok (fst (extraction svc l t p)) = true) ->
    is_ok (pdf_load_and_split svc (i + t) (i + p) (on_disk_at_parse svc f))
    = true.
Proof.
  induction l as [|f0 l IH]; intros t p i f Hn H.
  - destruct i; discriminate Hn.
  - cbn [extraction] in H.
    destruct (pdf_load_and_split svc t p (on_disk_at_parse svc f0))
      as [pages|e] eqn:Hf0.
    + destruct i as [|i].
      * injection Hn as <-. cbn [Nat.add]. now rewrite Hf0.
      * cbn [nth_error] in Hn. specialize (IH (S t) (S p) i f Hn).
        rewrite !Nat.add_succ_r in IH. apply IH.
        destruct (extraction svc l (S t) (S p)) as [[ts|e] j];
          cbn [fst snd result_map is_ok] in *;
          (destruct H as [H|[H1 H2]];
           [left; lia|first [discriminate H2 | right; split; [lia|exact H2]]]).
    + cbn [fst snd is_ok] in H. destruct H as [H|[_ H]];
        [lia|discriminate].
Qed.

(** When extraction raises, the last document the parser was called on
    is the one it refused. *)
Lemma extraction_refused (l : list UploadedFile) :
  forall t p e,
    fst (extraction svc l t p) = Raised e ->
    exists k f,
      snd (extraction svc l t p) = S k
      /\ nth_error l k = Some f
      /\ pdf_load_and_split svc (k + t) (k + p) (on_disk_at_parse svc f)
         = Raised e.
Proof.
  induction l as [|f0 l IH]; intros t p e; cbn [extraction];
    [discriminate|].
  destruct (pdf_load_and_split svc t p (on_disk_at_parse svc f0))
    as [pages|e1] eqn:Hf0.
  - specialize (IH (S t) (S p) e).
    destruct (extraction svc l (S t) (S p)) as [[ts|e2] j];
      cbn [fst snd result_map] in *; [discriminate|].
    intros H. destruct (IH H) as (k & f & -> & Hn & Hr).
    exists (S k), f. rewrite !Nat.add_succ_r in Hr. auto.
  - cbn [fst snd]. intros [= <-]. exists 0, f0. auto.
Qed.

Lemma chain_calls_events (corpus style : string) (vs1 vs2 : list vector)
      (prompt : ChatPromptTemplate) (m : ChatOpenAI) (q : string)
      (t : nat) :
  Forall (fun ev => is_pdf_load ev = false)
    (snd (chain_calls svc corpus style vs1 vs2 prompt m q t)).
Proof.
  unfold chain_calls.
  destruct (retrieved svc t corpus vs1 q); [|repeat constructor].
  destruct (retrieved svc (1 + t) style vs2 q); [|repeat constructor].
  destruct (prompt_value svc prompt _); repeat constructor.
Qed.

Lemma calls_after_extraction_events (ui : LuciUIController)
      (corpus style : string) (t : nat) :
  exists evs,
    snd (calls_after_extraction svc ui corpus style t)
    = EvEmbedDocuments [corpus] :: evs
    /\ Forall (fun ev => is_pdf_load ev = false) evs.
Proof.
  unfold calls_after_extraction.
  destruct (embed_documents svc t [corpus]) as [vs1|e1];
    [|eexists; split; [reflexivity|constructor]].
  destruct (embed_documents svc (1 + t) [style]) as [vs2|e2];
    [|eexists; split; [reflexivity|repeat constructor]].
  destruct (template_of svc (prompt_text ui)) as [prompt|e0];
    [|eexists; split; [reflexivity|repeat constructor]].
  pose proof (chain_calls_events corpus style vs1 vs2 prompt (chat_model ui)
                query_text (2 + t)) as Hev.
  destruct (chain_calls svc corpus style vs1 vs2 prompt (chat_model ui)
              query_text (2 + t)) as [[out|e3] evs];
    cbn [snd] in *; eexists; (split; [reflexivity|]).
  - constructor; [reflexivity|]. apply Forall_app. split; [assumption|].
    repeat constructor.
  - constructor; [reflexivity|assumption].
Qed.

End OutcomeFacts.

(** ** Orchestrator: files and parser calls of a run *)

(** X4: a run calls the parser on the uploaded documents in the order
    style document, then source documents, each on a new path, and stops
    at the first document the parser refuses: the parser answered for
    every document before the last one it was called on; either it
    refused that one, the run raised its exception and made no further
    call, or it answered for all documents and the run went on.  Every
    document the parser was called on leaves one closed file holding its
    payload in storage. *)
Theorem generate_leaves_one_file_per_document
        (svc : Services) (ui : LuciUIController) (w w' : World)
        (r : result unit) :
  generate svc ui w = (r, w') ->
  exists j evs,
    j <= List.length (uploads ui)
    /\ (r = Ok tt -> j = List.length (uploads ui))
    /\ files w' = files w ++ map closed_file (firstn j (uploads ui))
    /\ trace w' =
       trace w ++ map EvPdfLoad (seq (List.length (files w)) j) ++ evs
    /\ Forall (fun ev => is_pdf_load ev = false) evs
    /\ (forall i f,
          S i < j ->
          nth_error (uploads ui) i = Some f ->
          is_ok (pdf_load_and_split svc (i + List.length (trace w))
                   (i + List.length (files w)) (on_disk_at_parse svc f))
          = true)
    /\ ((evs = []
         /\ exists k f e,
              j = S k
              /\ nth_error (uploads ui) k = Some f
              /\ pdf_load_and_split svc (k + List.length (trace w))
                   (k + List.length (files w)) (on_disk_at_parse svc f)
                 = Raised e
              /\ r = Raised e)
        \/ (evs <> []
            /\ j = List.length (uploads ui)
            /\ forall i f,
                 nth_error (uploads ui) i = Some f ->
                 is_ok (pdf_load_and_split svc (i + List.length (trace w))
                          (i + List.length (files w))
                          (on_disk_at_parse svc f))
                 = true)).
Proof.
  intros Hrun.
  destruct (generate_outcome svc ui w w' r Hrun) as (j & evs & Hout & ->).
  exists j, evs. unfold run_outcome in Hout.
  destruct (extraction_attempts svc (uploads ui) (List.length (trace w))
              (List.length (files w))) as [Hle Hall].
  pose proof (extraction_answered svc (uploads ui) (List.length (trace w))
                (List.length (files w))) as Hans.
  pose proof (extraction_refused svc (uploads ui) (List.length (trace w))
                (List.length (files w))) as Href.
  destruct (extraction svc (uploads ui) _ _) as [[texts|e] j0];
    cbn [fst snd is_ok] in *.
  - destruct (split_texts ui texts) as [style sources].
    destruct (calls_after_extraction_events svc ui (join " " sources) style
                (j0 + List.length (trace w))) as (evs0 & Hevs & Hnp).
    destruct (calls_after_extraction svc ui _ _ _) as [r0 evs1].
    cbn [snd] in Hevs. injection Hout as <- <- <-. subst evs1.
    specialize (Hall eq_refl).
    repeat split; auto.
    right. split; [discriminate|]. split; [assumption|].
    intros i f Hn. apply Hans; [assumption|]. right. split; [|reflexivity].
    rewrite Hall. apply nth_error_Some. congruence.
  - injection Hout as <- <- <-.
    repeat split; auto; try discriminate.
    left. split; [reflexivity|].
    destruct (Href e eq_refl) as (k & f & -> & Hn & Hr).
    exists k, f, e. auto.
Qed.

Lemma generate_leaves_one_file_per_document_witness :
  exists j evs,
    j <= 4
    /\ (Ok tt = Ok tt -> j = 4)
    /\ abc_files = [] ++ map closed_file (firstn j (uploads abc_ui))
    /\ abc_calls = [] ++ map EvPdfLoad (seq 0 j) ++ evs
    /\ Forall (fun ev => is_pdf_load ev = false) evs
    /\ (forall i f,
          S i < j ->
          nth_error (uploads abc_ui) i = Some f ->
          is_ok (pdf_load_and_split Fake.services (i + 0) (i + 0)
                   (on_disk_at_parse Fake.services f))
          = true)
    /\ ((evs = []
         /\ exists k f e,
              j = S k
              /\ nth_error (uploads abc_ui) k = Some f
              /\ pdf_load_and_split Fake.services (k + 0) (k + 0)
                   (on_disk_at_parse Fake.services f)
                 = Raised e
              /\ Ok tt = Raised e)
        \/ (evs <> []
            /\ j = 4
            /\ forall i f,
                 nth_error (uploads abc_ui) i = Some f ->
                 is_ok (pdf_load_and_split Fake.services (i + 0) (i + 0)
                          (on_disk_at_parse Fake.services f))
                 = true)).
Proof.
  exact (generate_leaves_one_file_per_document Fake.services abc_ui
           Fake.empty_world _ _ abc_run).
Defined.

(** X5: when the parser refuses the style document, the run raises the
    parser's exception at once: no other document is read, nothing is
    embedded or generated, and the temporary file of the style document
    stays in storage. *)
Theorem refused_style_document_aborts_run
        (svc : Services) (ui : LuciUIController) (w : World)
        (f : UploadedFile) (e : exn) :
  sample_article ui = Some f ->
  pdf_load_and_split svc (List.length (trace w)) (List.length (files w))
    (on_disk_at_parse svc f) = Raised e ->
  generate svc ui w =
  (Raised e,
   {| files :=
        files w
        ++ [{| data := getvalue f; pending := []; closed := true |}];
      trace := trace w ++ [EvPdfLoad (List.length (files w))] |}).
Proof.
  intros Hs Hf. rewrite generate_run.
  unfold run_outcome, uploads, style_docs. rewrite Hs.
  cbn [app extraction]. rewrite Hf. reflexivity.
Qed.

(** A style document that fits into the write buffer: the strict parser
    finds an empty file. *)
Lemma refused_style_document_aborts_run_witness :
  generate Fake.strict_services
    {| selected_model := "gpt-4"; temperature := 7 # 10;
       sample_article := Some (Fake.small_upload "Style");
       essays := [Fake.upload "A"];
       prompt_text := "{style}|{context}" |}
    Fake.empty_world =
  (Raised "EmptyFileError",
   {| files :=
        [{| data := list_byte_of_string "Style";
            pending := [];
            closed := true |}];
      trace := [EvPdfLoad 0] |}).
Proof.
  exact (refused_style_document_aborts_run Fake.strict_services
           {| selected_model := "gpt-4"; temperature := 7 # 10;
              sample_article := Some (Fake.small_upload "Style");
              essays := [Fake.upload "A"];
              prompt_text := "{style}|{context}" |}
           Fake.empty_world (Fake.small_upload "Style") "EmptyFileError"
           eq_refl eq_refl).
Defined.

(** X6: a run whose calls are calls to the parser only has failed in
    extraction: it raised an exception that the parser raised on one of
    the uploaded documents. *)
Theorem run_without_embedding_failed_in_parser
        (svc : Services) (ui : LuciUIController) (w w' : World)
        (r : result unit) (news : list Event) :
  generate svc ui w = (r, w') ->
  trace w' = trace w ++ news ->
  Forall (fun ev => is_pdf_load ev = true) news ->
  exists e f t p,
    r = Raised e
    /\ In f (uploads ui)
    /\ pdf_load_and_split svc t p (on_disk_at_parse svc f) = Raised e.
Proof.
  intros Hrun Hnews Hall.
  destruct (generate_outcome svc ui w w' r Hrun) as (j & evs & Hout & ->).
  cbn [after_run trace] in Hnews. apply app_inv_head in Hnews. subst news.
  apply Forall_app in Hall. destruct Hall as [_ Hevs].
  unfold run_outcome in Hout.
  pose proof (extraction_raises svc (uploads ui) (List.length (trace w))
                (List.length (files w))) as Hraise.
  destruct (extraction svc (uploads ui) _ _) as [[texts|e] j0];
    cbn [fst] in Hraise.
  - destruct (split_texts ui texts) as [style sources].
    destruct (calls_after_extraction_events svc ui (join " " sources) style
                (j0 + List.length (trace w))) as (evs0 & Heq & _).
    destruct (calls_after_extraction svc ui _ _ _) as [r0 evs1].
    cbn [snd] in Heq. injection Hout as _ _ <-. subst evs1.
    inversion Hevs; discriminate.
  - injection Hout as <- _ _.
    destruct (Hraise e eq_refl) as (f & t & p & Hin & Hf).
    now exists e, f, t, p.
Qed.

(** The second of three documents fits into the write buffer: the
    strict parser finds an empty file. *)
Lemma second_essay_refused_run :
  generate Fake.strict_services
    (essays_ui [Fake.upload "A"; Fake.small_upload "B"; Fake.upload "C"])
    Fake.empty_world =
  (Raised "EmptyFileError",
   {| files := [closed_file (Fake.upload "A");
                closed_file (Fake.small_upload "B")];
      trace := [EvPdfLoad 0; EvPdfLoad 1] |}).
Proof. vm_compute. reflexivity. Qed.

Lemma run_without_embedding_failed_in_parser_witness :
  exists e f t p,
    @Raised unit "EmptyFileError" = Raised e
    /\ In f [Fake.upload "A"; Fake.small_upload "B"; Fake.upload "C"]
    /\ pdf_load_and_split Fake.strict_services t p
         (on_disk_at_parse Fake.strict_services f) = Raised e.
Proof.
  apply (run_without_embedding_failed_in_parser Fake.strict_services
           (essays_ui
              [Fake.upload "A"; Fake.small_upload "B"; Fake.upload "C"])
           Fake.empty_world _ _ [EvPdfLoad 0; EvPdfLoad 1]
           second_essay_refused_run eq_refl).
  repeat constructor.
Defined.



(** ** Orchestrator: the template is looked at late *)

Section DependableRuns.

Variable svc : Services.

Lemma has_key_chain_keys (n : string) (c s : list Document) :
  has_key [("context", c); ("style", s)] n
  = existsb (String.eqb n) chain_keys.
Proof.
  unfold has_key, chain_keys. cbn [existsb dict_get].
  rewrite (String.eqb_sym n "context"), (String.eqb_sym n "style").
  destruct ("context" =? n)%string; [reflexivity|].
  destruct ("style" =? n)%string; reflexivity.
Qed.

Lemma forallb_has_key (ps : list piece) (c s : list Document) :
  forallb (has_key [("context", c); ("style", s)]) (input_variables ps)
  = forallb (fun n => existsb (String.eqb n) chain_keys)
      (input_variables ps).
Proof.
  induction (input_variables ps) as [|n l IH]; [reflexivity|].
  cbn [forallb]. now rewrite IH, has_key_chain_keys.
Qed.

(** A run returns only if the chat service answered, and the answer is
    what is written; for a template this development reads, only if the
    template binds. *)
Lemma calls_after_extraction_ok (ui : LuciUIController)
      (corpus style : string) (t : nat) :
  fst (calls_after_extraction svc ui corpus style t) = Ok tt ->
  (reads_template (prompt_text ui) = true ->
   template_binds (prompt_text ui) = true)
  /\ exists p out,
       chat_completions svc (4 + t) (chat_model ui) p = Ok out
       /\ snd (calls_after_extraction svc ui corpus style t) =
          [EvEmbedDocuments [corpus]; EvEmbedDocuments [style];
           EvEmbedQuery query_text; EvEmbedQuery query_text;
           EvChat (chat_model ui) p; EvStWrite out].
Proof.
  unfold calls_after_extraction, template_binds, reads_template, template_of.
  destruct (embed_documents svc t [corpus]) as [vs1|e1]; [|discriminate].
  destruct (embed_documents svc (1 + t) [style]) as [vs2|e2];
    [|discriminate].
  assert (Hchain : forall prompt,
            fst (let (r, evs) :=
                   chain_calls svc corpus style vs1 vs2 prompt
                     (chat_model ui) query_text (2 + t) in
                 match r with
                 | Ok out =>
                     (Ok tt,
                      EvEmbedDocuments [corpus] :: EvEmbedDocuments [style]
                        :: evs ++ [EvStWrite out])
                 | Raised e =>
                     (Raised e,
                      EvEmbedDocuments [corpus] :: EvEmbedDocuments [style]
                        :: evs)
                 end) = Ok tt ->
            (forall ps, prompt = FString ps ->
                        forallb (fun n => existsb (String.eqb n) chain_keys)
                          (input_variables ps) = true)
            /\ exists p out,
                 chat_completions svc (4 + t) (chat_model ui) p = Ok out
                 /\ snd (let (r, evs) :=
                           chain_calls svc corpus style vs1 vs2 prompt
                             (chat_model ui) query_text (2 + t) in
                         match r with
                         | Ok out =>
                             (Ok tt,
                              EvEmbedDocuments [corpus]
                                :: EvEmbedDocuments [style]
                                :: evs ++ [EvStWrite out])
                         | Raised e =>
                             (Raised e,
                              EvEmbedDocuments [corpus]
                                :: EvEmbedDocuments [style] :: evs)
                         end) =
                    [EvEmbedDocuments [corpus]; EvEmbedDocuments [style];
                     EvEmbedQuery query_text; EvEmbedQuery query_text;
                     EvChat (chat_model ui) p; EvStWrite out]).
  { intros prompt. unfold chain_calls.
    destruct (retrieved svc (2 + t) corpus vs1 query_text) as [cdocs|e3];
      [|discriminate].
    destruct (retrieved svc (1 + (2 + t)) style vs2 query_text)
      as [sdocs|e4]; [|discriminate].
    destruct (prompt_value svc prompt _) as [bound|e5] eqn:Hp;
      [|discriminate].
    destruct (chat_completions svc (2 + (2 + t)) (chat_model ui) bound)
      as [out|e6] eqn:Hchat; [|discriminate].
    intros _. split.
    - intros ps ->. unfold prompt_value in Hp.
      rewrite forallb_has_key in Hp.
      destruct (forallb _ (input_variables ps)); [reflexivity|discriminate].
    - exists bound, out. split; [exact Hchat|reflexivity]. }
  destruct (parse_template (prompt_text ui) None) as [ps| |].
  - intros H. destruct (Hchain _ H) as [Hb Hex]. split; [|exact Hex].
    intros _. now apply Hb.
  - discriminate.
  - destruct (library_from_template svc (prompt_text ui)); [discriminate|].
    intros H. destruct (Hchain _ H) as [_ Hex]. split; [|exact Hex].
    discriminate.
Qed.

Hypothesis svc_dependable : dependable svc.

Lemma extraction_total (l : list UploadedFile) :
  forall t p,
    exists texts, extraction svc l t p = (Ok texts, List.length l).
Proof.
  destruct svc_dependable as (Hpdf & _).
  induction l as [|f l IH]; intros t p; cbn [extraction].
  - now exists [].
  - specialize (Hpdf t p (on_disk_at_parse svc f)).
    destruct (pdf_load_and_split svc t p (on_disk_at_parse svc f))
      as [pages|e]; [|discriminate].
    destruct (IH (S t) (S p)) as [texts ->].
    now exists (join "" pages :: texts).
Qed.

Lemma embed_single_total (t : nat) (text : string) :
  exists v, embed_documents svc t [text] = Ok [v].
Proof.
  destruct svc_dependable as (_ & Hemb & _).
  destruct (Hemb t [text]) as (vs & -> & Hlen).
  destruct vs as [|v [|? ?]]; try discriminate. now exists v.
Qed.

Lemma retrieved_total (t : nat) (text : string) (v : vector) (q : string) :
  exists docs, retrieved svc t text [v] q = Ok docs.
Proof.
  unfold retrieved.
  destruct svc_dependable as (_ & _ & Hq & Hsearch & _).
  specialize (Hq t q).
  destruct (embed_query svc t q) as [qv|e]; [|discriminate].
  apply lookup_documents_total. exact (Hsearch [v] qv 4).
Qed.

(** With collaborators that answer and a template this development
    reads, both indexes are built and both retrievals answer; then the
    fields of the template decide. *)
Lemma calls_after_extraction_parsed (ui : LuciUIController)
      (corpus style : string) (t : nat) (ps : list piece) :
  parse_template (prompt_text ui) None = Parsed ps ->
  exists v1 v2 cdocs sdocs,
    retrieved svc (2 + t) corpus [v1] query_text = Ok cdocs
    /\ retrieved svc (3 + t) style [v2] query_text = Ok sdocs
    /\ if forallb (fun n => existsb (String.eqb n) chain_keys)
            (input_variables ps)
       then
         exists out,
           calls_after_extraction svc ui corpus style t =
           (Ok tt,
            [EvEmbedDocuments [corpus]; EvEmbedDocuments [style];
             EvEmbedQuery query_text; EvEmbedQuery query_text;
             EvChat (chat_model ui)
               (format_pieces svc ps
                  [("context", cdocs); ("style", sdocs)]);
             EvStWrite out])
       else
         calls_after_extraction svc ui corpus style t =
         (Raised "KeyError",
          [EvEmbedDocuments [corpus]; EvEmbedDocuments [style];
           EvEmbedQuery query_text; EvEmbedQuery query_text]).
Proof.
  intros Hparse.
  unfold calls_after_extraction, template_of. rewrite Hparse.
  destruct (embed_single_total t corpus) as [v1 ->].
  destruct (embed_single_total (1 + t) style) as [v2 ->].
  unfold chain_calls.
  destruct (retrieved_total (2 + t) corpus v1 query_text) as [cdocs Hc].
  destruct (retrieved_total (3 + t) style v2 query_text) as [sdocs Hs].
  exists v1, v2, cdocs, sdocs.
  split; [assumption|]. split; [assumption|].
  change (1 + (2 + t)) with (3 + t). rewrite Hc, Hs.
  unfold prompt_value. rewrite forallb_has_key.
  destruct (forallb _ (input_variables ps)); [|reflexivity].
  destruct svc_dependable as (_ & _ & _ & _ & Hchat).
  match goal with
  | |- context [chat_completions svc ?t0 ?m ?p] =>
      specialize (Hchat t0 m p);
      destruct (chat_completions svc t0 m p) as [out|e]; [|discriminate]
  end.
  now exists out.
Qed.

(** With collaborators that answer, the part after extraction ends in
    one of three ways, decided by the template alone. *)
Lemma calls_after_extraction_dependable (ui : LuciUIController)
      (corpus style : string) (t : nat) :
  match parse_template (prompt_text ui) None with
  | Malformed =>
      calls_after_extraction svc ui corpus style t =
      (Raised "ValueError",
       [EvEmbedDocuments [corpus]; EvEmbedDocuments [style]])
  | Parsed ps =>
      if forallb (fun n => existsb (String.eqb n) chain_keys)
           (input_variables ps)
      then fst (calls_after_extraction svc ui corpus style t) = Ok tt
      else
        calls_after_extraction svc ui corpus style t =
        (Raised "KeyError",
         [EvEmbedDocuments [corpus]; EvEmbedDocuments [style];
          EvEmbedQuery query_text; EvEmbedQuery query_text])
  | Unmodelled => True
  end.
Proof.
  destruct (parse_template (prompt_text ui) None) as [ps| |] eqn:Hparse.
  - destruct (calls_after_extraction_parsed ui corpus style t ps Hparse)
      as (v1 & v2 & cdocs & sdocs & _ & _ & H).
    destruct (forallb _ (input_variables ps)); [|exact H].
    destruct H as [out ->]. reflexivity.
  - unfold calls_after_extraction, template_of. rewrite Hparse.
    destruct (embed_single_total t corpus) as [v1 ->].
    destruct (embed_single_total (1 + t) style) as [v2 ->].
    reflexivity.
  - exact I.
Qed.

End DependableRuns.

(** ** Prompt Composer *)

(** C4, as stated, fails twice.  A template without the context field is
    bound and sent to the chat model; a template with both fields and a
    third one is refused. *)
Lemma template_without_context_is_sent :
  generate Fake.services
    {| selected_model := "gpt-4"; temperature := 7 # 10;
       sample_article := None; essays := [Fake.upload "A"];
       prompt_text := "Write in the style of {style}." |}
    Fake.empty_world =
  (Ok tt,
   {| files := [closed_file (Fake.upload "A")];
      trace :=
        [EvPdfLoad 0;
         EvEmbedDocuments ["A"]; EvEmbedDocuments [""];
         EvEmbedQuery query_text; EvEmbedQuery query_text;
         EvChat gpt4 "Write in the style of [<>].";
         EvStWrite "Article by gpt-4: Write in the style of [<>]."] |})
  /\ fst (generate Fake.services
            {| selected_model := "gpt-4"; temperature := 7 # 10;
               sample_article := None; essays := [Fake.upload "A"];
               prompt_text := "{style} {context} {topic}" |}
            Fake.empty_world) = Raised "KeyError".
Proof. split; vm_compute; reflexivity. Qed.

(** The prompt the page offers until the user edits it binds. *)
Lemma default_prompt_binds : template_binds default_prompt_text = true.
Proof. vm_compute. reflexivity. Qed.

Lemma join_empty_cons (x : string) (l : list string) :
  join "" (x :: l) = (x ++ join "" l)%string.
Proof.
  destruct l; cbn [join]; [now rewrite append_nil_r|reflexivity].
Qed.

Lemma parse_literal (c : ascii) (r : string) :
  Ascii.eqb c "{" = false ->
  Ascii.eqb c "}" = false ->
  parse_template (String c r) None =
  add_piece (Lit c) (parse_template r None).
Proof.
  intros Hopen Hclose.
  destruct c as [[] [] [] [] [] [] [] []];
    first [discriminate Hopen | discriminate Hclose | reflexivity].
Qed.

Lemma parse_inside_field (c : ascii) (r acc : string) :
  is_identifier_char c = true ->
  parse_template (String c r) (Some acc) =
  parse_template r (Some (acc ++ String c "")%string).
Proof.
  intros Hc.
  destruct c as [[] [] [] [] [] [] [] []];
    first [discriminate Hc | reflexivity].
Qed.

Lemma parse_field_name (n : string) :
  identifier_chars n = true ->
  forall acc r,
    parse_template (n ++ String "}" r) (Some acc) =
    if is_field_name (acc ++ n)
    then add_piece (Field (acc ++ n)%string) (parse_template r None)
    else Unmodelled.
Proof.
  induction n as [|c n IH]; intros Hn acc r.
  - cbn [append]. rewrite append_nil_r. reflexivity.
  - cbn [identifier_chars] in Hn. apply andb_prop in Hn.
    destruct Hn as [Hc Hn].
    cbn [append]. rewrite parse_inside_field by assumption.
    rewrite IH by assumption. now rewrite append_assoc.
Qed.

Lemma parse_open_field (n r : string) :
  identifier_chars n = true ->
  parse_template (String "{" (n ++ String "}" r)) None =
  parse_template (n ++ String "}" r) (Some "").
Proof.
  destruct n as [|c n]; [reflexivity|].
  cbn [identifier_chars append]. intros Hn.
  apply andb_prop in Hn. destruct Hn as [Hc _].
  destruct c as [[] [] [] [] [] [] [] []];
    first [discriminate Hc | reflexivity].
Qed.

Lemma parse_piece (p : piece) (r : string) :
  plain_piece p = true ->
  parse_template (piece_text p ++ r) None =
  add_piece p (parse_template r None).
Proof.
  destruct p as [c|n]; cbn [plain_piece piece_text]; intros Hp.
  - destruct (Ascii.eqb c "{") eqn:Hopen.
    { apply Ascii.eqb_eq in Hopen. subst c. reflexivity. }
    destruct (Ascii.eqb c "}") eqn:Hclose.
    { apply Ascii.eqb_eq in Hclose. subst c. reflexivity. }
    cbn [append]. now apply parse_literal.
  - apply andb_prop in Hp. destruct Hp as [Hid Hname].
    cbn [append]. rewrite append_assoc. cbn [append].
    rewrite parse_open_field by assumption.
    rewrite parse_field_name by assumption.
    cbn [append]. now rewrite Hname.
Qed.

(** A template written from pieces is read back as these pieces. *)
Lemma parse_template_text (ps : list piece) :
  forallb plain_piece ps = true ->
  parse_template (template_text ps) None = Parsed ps.
Proof.
  unfold template_text.
  induction ps as [|p ps IH]; [reflexivity|].
  cbn [forallb map]. intros H. apply andb_prop in H. destruct H as [Hp Hps].
  rewrite join_empty_cons, parse_piece by assumption.
  now rewrite IH.
Qed.

Lemma format_piece_substitute (svc : Services) (c s : list Document)
      (p : piece) :
  (forall n, p = Field n -> existsb (String.eqb n) chain_keys = true) ->
  format_piece svc [("context", c); ("style", s)] p =
  substitute (str_documents svc c) (str_documents svc s) p.
Proof.
  destruct p as [ch|n]; [reflexivity|].
  intros H. specialize (H n eq_refl).
  unfold chain_keys in H. cbn [existsb] in H.
  cbn [format_piece substitute dict_get].
  rewrite (String.eqb_sym "context" n), (String.eqb_sym "style" n).
  destruct (String.eqb n "context"); [reflexivity|].
  destruct (String.eqb n "style"); [reflexivity|discriminate].
Qed.

Lemma input_variables_in (ps : list piece) (n : string) :
  In (Field n) ps -> In n (input_variables ps).
Proof.
  induction ps as [|[c|m] ps IH]; cbn; [tauto| |].
  - intros [[=]|H]. auto.
  - intros [[= ->]|H]; auto.
Qed.

Lemma format_pieces_substitute (svc : Services) (ps : list piece)
      (c s : list Document) :
  forallb (fun n => existsb (String.eqb n) chain_keys)
    (input_variables ps) = true ->
  format_pieces svc ps [("context", c); ("style", s)] =
  join "" (map (substitute (str_documents svc c) (str_documents svc s)) ps).
Proof.
  intros Hkeys. unfold format_pieces. f_equal.
  apply map_ext_in. intros p Hp.
  apply format_piece_substitute. intros n ->.
  apply (proj1 (forallb_forall _ _) Hkeys).
  now apply input_variables_in.
Qed.

(** C4 (amended): prompt composition does not test that the context
    field occurs.  Take a template written as a sequence of literal
    characters and of fields named by identifiers, and collaborators
    that answer.  If its fields are all named style or context, whether
    or not context is among them, the run binds it and sends it to the
    chat model: each occurrence of a field is replaced, once, by the
    text of the documents retrieved from the store of the content
    corpus (context) or of the style corpus (style), and the literal
    characters are kept.  If it has a field of another name, the run
    raises [KeyError] after both retrievals and the chat model is not
    called, also when both fields occur. *)
Theorem prompt_composition
        (svc : Services) (ui : LuciUIController) (ps : list piece)
        (w : World) :
  dependable svc ->
  forallb plain_piece ps = true ->
  prompt_text ui = template_text ps ->
  exists w' pre style_text source_texts vs1 vs2 context_docs style_docs
         wa wb wc wd,
    Forall (fun ev => is_pdf_load ev = true) pre
    /\ style_extracted svc ui style_text
    /\ Forall2 (extracted_from svc) (essays ui) source_texts
    /\ retriever_invoke svc
         (as_retriever
            {| docstore := [{| page_content := join " " source_texts |}];
               index := vs1 |})
         query_text wa = (Ok context_docs, wb)
    /\ retriever_invoke svc
         (as_retriever
            {| docstore := [{| page_content := style_text |}];
               index := vs2 |})
         query_text wc = (Ok style_docs, wd)
    /\ if forallb (fun n => existsb (String.eqb n) chain_keys)
            (input_variables ps)
       then
         exists out,
           generate svc ui w = (Ok tt, w')
           /\ trace w' =
              trace w ++ pre ++
              [EvEmbedDocuments [join " " source_texts];
               EvEmbedDocuments [style_text];
               EvEmbedQuery query_text; EvEmbedQuery query_text;
               EvChat {| model_name := selected_model ui;
                         model_temperature := None |}
                 (join ""
                    (map (substitute (str_documents svc context_docs)
                            (str_documents svc style_docs)) ps));
               EvStWrite out]
       else
         generate svc ui w = (Raised "KeyError", w')
         /\ trace w' =
            trace w ++ pre ++
            [EvEmbedDocuments [join " " source_texts];
             EvEmbedDocuments [style_text];
             EvEmbedQuery query_text; EvEmbedQuery query_text].
Proof.
  intros Hdep Hplain Htext.
  assert (Hparse : parse_template (prompt_text ui) None = Parsed ps)
    by (rewrite Htext; now apply parse_template_text).
  rewrite generate_run. unfold run_outcome.
  pose proof (split_texts_extracted svc ui (List.length (trace w))
                (List.length (files w))) as Hext.
  destruct (extraction_total svc Hdep (uploads ui) (List.length (trace w))
              (List.length (files w))) as [texts Hex].
  rewrite Hex in *. cbn [fst] in Hext. specialize (Hext texts eq_refl).
  destruct (split_texts ui texts) as [style sources]. cbn [fst snd] in Hext.
  destruct Hext as [Hst Hsrc].
  destruct (calls_after_extraction_parsed svc Hdep ui (join " " sources)
              style (List.length (uploads ui) + List.length (trace w))
              ps Hparse)
    as (v1 & v2 & cdocs & sdocs & Hc & Hs & Hcalls).
  assert (Hra : retriever_invoke svc
                  (as_retriever
                     {| docstore := [{| page_content := join " " sources |}];
                        index := [v1] |})
                  query_text
                  (world_at
                     (2 + (List.length (uploads ui)
                           + List.length (trace w))) 0)
                = (Ok cdocs,
                   logged [EvEmbedQuery query_text]
                     (world_at
                        (2 + (List.length (uploads ui)
                              + List.length (trace w))) 0))).
  { change (as_retriever _) with (single_store (join " " sources) [v1]).
    rewrite retriever_single_run. unfold world_at at 1.
    cbn [trace]. rewrite repeat_length. now rewrite Hc. }
  assert (Hrs : retriever_invoke svc
                  (as_retriever
                     {| docstore := [{| page_content := style |}];
                        index := [v2] |})
                  query_text
                  (world_at
                     (3 + (List.length (uploads ui)
                           + List.length (trace w))) 0)
                = (Ok sdocs,
                   logged [EvEmbedQuery query_text]
                     (world_at
                        (3 + (List.length (uploads ui)
                              + List.length (trace w))) 0))).
  { change (as_retriever _) with (single_store style [v2]).
    rewrite retriever_single_run. unfold world_at at 1.
    cbn [trace]. rewrite repeat_length. now rewrite Hs. }
  destruct (forallb (fun n => existsb (String.eqb n) chain_keys)
              (input_variables ps)) eqn:Hkeys.
  - destruct Hcalls as [out Hcalls]. rewrite Hcalls. cbn [fst snd].
    eexists _,
      (map EvPdfLoad
         (seq (List.length (files w)) (List.length (uploads ui)))),
      style, sources, [v1], [v2], cdocs, sdocs, _, _, _, _.
    split; [apply pdf_loads_are_pdf_loads|].
    split; [assumption|]. split; [assumption|].
    split; [exact Hra|]. split; [exact Hrs|].
    exists out. rewrite format_pieces_substitute by assumption.
    split; reflexivity.
  - rewrite Hcalls. cbn [fst snd].
    eexists _,
      (map EvPdfLoad
         (seq (List.length (files w)) (List.length (uploads ui)))),
      style, sources, [v1], [v2], cdocs, sdocs, _, _, _, _.
    split; [apply pdf_loads_are_pdf_loads|].
    split; [assumption|]. split; [assumption|].
    split; [exact Hra|]. split; [exact Hrs|].
    split; reflexivity.
Qed.

(** The template "In {style}." has no context field and is sent. *)
Lemma prompt_composition_witness :
  exists w' pre style_text source_texts vs1 vs2 context_docs style_docs
         wa wb wc wd,
    Forall (fun ev => is_pdf_load ev = true) pre
    /\ style_extracted Fake.services
         {| selected_model := "gpt-4"; temperature := 7 # 10;
            sample_article := None; essays := [Fake.upload "A"];
            prompt_text := "In {style}." |} style_text
    /\ Forall2 (extracted_from Fake.services) [Fake.upload "A"] source_texts
    /\ retriever_invoke Fake.services
         (as_retriever
            {| docstore := [{| page_content := join " " source_texts |}];
               index := vs1 |})
         query_text wa = (Ok context_docs, wb)
    /\ retriever_invoke Fake.services
         (as_retriever
            {| docstore := [{| page_content := style_text |}];
               index := vs2 |})
         query_text wc = (Ok style_docs, wd)
    /\ exists out,
         generate Fake.services
           {| selected_model := "gpt-4"; temperature := 7 # 10;
              sample_article := None; essays := [Fake.upload "A"];
              prompt_text := "In {style}." |} Fake.empty_world
         = (Ok tt, w')
         /\ trace w' =
            [] ++ pre ++
            [EvEmbedDocuments [join " " source_texts];
             EvEmbedDocuments [style_text];
             EvEmbedQuery query_text; EvEmbedQuery query_text;
             EvChat gpt4
               (join ""
                  (map (substitute (Fake.str_docs context_docs)
                          (Fake.str_docs style_docs))
                     [Lit "I"; Lit "n"; Lit " "; Field "style"; Lit "."]));
             EvStWrite out].
Proof.
  exact (prompt_composition Fake.services
           {| selected_model := "gpt-4"; temperature := 7 # 10;
              sample_article := None; essays := [Fake.upload "A"];
              prompt_text := "In {style}." |}
           [Lit "I"; Lit "n"; Lit " "; Field "style"; Lit "."]
           Fake.empty_world dependable_fake_services eq_refl eq_refl).
Defined.

(** X8: a template with a single closing brace or an unclosed field is
    noticed only after both indexes were built.  With collaborators that
    answer, such a run reads every uploaded document, sends both corpora
    to the embedding service and then raises [ValueError]; no retrieval
    and no generation follow. *)
Theorem malformed_template_fails_after_indexing
        (svc : Services) (ui : LuciUIController) (w : World) :
  dependable svc ->
  parse_template (prompt_text ui) None = Malformed ->
  exists w' corpus style,
    generate svc ui w = (Raised "ValueError", w')
    /\ trace w' =
       trace w
       ++ map EvPdfLoad
            (seq (List.length (files w)) (List.length (uploads ui)))
       ++ [EvEmbedDocuments [corpus]; EvEmbedDocuments [style]].
Proof.
  intros Hdep Hparse. rewrite generate_run. unfold run_outcome.
  destruct (extraction_total svc Hdep (uploads ui) (List.length (trace w))
              (List.length (files w))) as [texts ->].
  destruct (split_texts ui texts) as [style sources].
  pose proof (calls_after_extraction_dependable svc Hdep ui
                (join " " sources) style
                (List.length (uploads ui) + List.length (trace w))) as Hc.
  rewrite Hparse in Hc. rewrite Hc. cbn [fst snd].
  eexists _, (join " " sources), style. split; reflexivity.
Qed.

Lemma malformed_template_fails_after_indexing_witness :
  exists w' corpus style,
    generate Fake.services
      {| selected_model := "gpt-4"; temperature := 7 # 10;
         sample_article := None; essays := [Fake.upload "A"];
         prompt_text := "Write about {context" |}
      Fake.empty_world = (Raised "ValueError", w')
    /\ trace w' =
       [] ++ map EvPdfLoad (seq 0 1)
       ++ [EvEmbedDocuments [corpus]; EvEmbedDocuments [style]].
Proof.
  exact (malformed_template_fails_after_indexing Fake.services
           {| selected_model := "gpt-4"; temperature := 7 # 10;
              sample_article := None; essays := [Fake.upload "A"];
              prompt_text := "Write about {context" |}
           Fake.empty_world dependable_fake_services eq_refl).
Defined.

(** X9: a template whose fields are named by identifiers, one of them
    other than style and context, is noticed only after retrieval.  With
    collaborators that answer, such a run makes all four embedding
    requests and then raises [KeyError]; the chat model is not
    called. *)
Theorem unbound_field_fails_after_retrieval
        (svc : Services) (ui : LuciUIController) (w : World)
        (ps : list piece) :
  dependable svc ->
  parse_template (prompt_text ui) None = Parsed ps ->
  forallb (fun n => existsb (String.eqb n) chain_keys)
    (input_variables ps) = false ->
  exists w' corpus style,
    generate svc ui w = (Raised "KeyError", w')
    /\ trace w' =
       trace w
       ++ map EvPdfLoad
            (seq (List.length (files w)) (List.length (uploads ui)))
       ++ [EvEmbedDocuments [corpus]; EvEmbedDocuments [style];
           EvEmbedQuery query_text; EvEmbedQuery query_text].
Proof.
  intros Hdep Hparse Hkeys. rewrite generate_run. unfold run_outcome.
  destruct (extraction_total svc Hdep (uploads ui) (List.length (trace w))
              (List.length (files w))) as [texts ->].
  destruct (split_texts ui texts) as [style sources].
  pose proof (calls_after_extraction_dependable svc Hdep ui
                (join " " sources) style
                (List.length (uploads ui) + List.length (trace w))) as Hc.
  rewrite Hparse, Hkeys in Hc. rewrite Hc. cbn [fst snd].
  eexists _, (join " " sources), style. split; reflexivity.
Qed.

Lemma unbound_field_fails_after_retrieval_witness :
  exists w' corpus style,
    generate Fake.services
      {| selected_model := "gpt-4"; temperature := 7 # 10;
         sample_article := None; essays := [Fake.upload "A"];
         prompt_text := "{context}{topic}" |}
      Fake.empty_world = (Raised "KeyError", w')
    /\ trace w' =
       [] ++ map EvPdfLoad (seq 0 1)
       ++ [EvEmbedDocuments [corpus]; EvEmbedDocuments [style];
           EvEmbedQuery query_text; EvEmbedQuery query_text].
Proof.
  exact (unbound_field_fails_after_retrieval Fake.services
           {| selected_model := "gpt-4"; temperature := 7 # 10;
              sample_article := None; essays := [Fake.upload "A"];
              prompt_text := "{context}{topic}" |}
           Fake.empty_world [Field "context"; Field "topic"]
           dependable_fake_services eq_refl eq_refl).
Defined.

(** X10: with collaborators that answer and a template this development
    reads (literal text, brace escapes, fields named by identifiers),
    whether a run returns depends on the template alone: it returns
    exactly when the template is well formed and all its fields are
    among style and context.  Neither the number of documents nor the
    model identifier matters. *)
Theorem generate_returns_iff_template_binds
        (svc : Services) (ui : LuciUIController) (w : World) :
  dependable svc ->
  reads_template (prompt_text ui) = true ->
  (exists w', generate svc ui w = (Ok tt, w'))
  <-> template_binds (prompt_text ui) = true.
Proof.
  intros Hdep Hreads. split.
  - intros [w' Hrun].
    destruct (generate_outcome svc ui w w' _ Hrun) as (j & evs & Hout & _).
    unfold run_outcome in Hout.
    destruct (extraction svc (uploads ui) _ _) as [[texts|e] j0];
      [|discriminate].
    destruct (split_texts ui texts) as [style sources].
    pose proof (calls_after_extraction_ok svc ui (join " " sources) style
                  (j0 + List.length (trace w))) as Hok.
    destruct (calls_after_extraction svc ui _ _ _) as [r0 evs0].
    injection Hout as -> _ _. now apply Hok.
  - now apply generate_total.
Qed.

Lemma generate_returns_iff_template_binds_witness :
  (exists w', generate Fake.services abc_ui Fake.empty_world = (Ok tt, w'))
  <-> template_binds (prompt_text abc_ui) = true.
Proof.
  exact (generate_returns_iff_template_binds Fake.services abc_ui
           Fake.empty_world dependable_fake_services eq_refl).
Defined.

(** ** Orchestrator: what is written *)

(** X11: in a run that returns, the last two calls are the chat request
    and the write, and the text written to the page is exactly what the
    chat service answered to that request. *)
Theorem written_text_is_chat_answer
        (svc : Services) (ui : LuciUIController) (w w' : World) :
  generate svc ui w = (Ok tt, w') ->
  exists before p out,
    trace w' =
      before ++
      [EvChat {| model_name := selected_model ui;
                 model_temperature := None |} p;
       EvStWrite out]
    /\ chat_completions svc (List.length before)
         {| model_name := selected_model ui; model_temperature := None |} p
       = Ok out.
Proof.
  intros Hrun.
  destruct (generate_outcome svc ui w w' _ Hrun) as (j & evs & Hout & ->).
  unfold run_outcome in Hout.
  destruct (extraction svc (uploads ui) _ _) as [[texts|e] j0];
    [|discriminate].
  destruct (split_texts ui texts) as [style sources].
  pose proof (calls_after_extraction_ok svc ui (join " " sources) style
                (j0 + List.length (trace w))) as Hok.
  destruct (calls_after_extraction svc ui _ _ _) as [r0 evs0].
  injection Hout as -> <- <-.
  destruct (Hok eq_refl) as (_ & p & out & Hchat & Hevs).
  cbn [snd] in Hevs. subst evs0.
  exists (trace w ++ map EvPdfLoad (seq (List.length (files w)) j0)
            ++ [EvEmbedDocuments [join " " sources];
                EvEmbedDocuments [style];
                EvEmbedQuery query_text; EvEmbedQuery query_text]),
    p, out.
  split.
  - cbn [after_run trace]. rewrite <- !app_assoc. reflexivity.
  - rewrite !length_app, length_map, length_seq. cbn [List.length].
    replace (List.length (trace w) + (j0 + 4))
      with (4 + (j0 + List.length (trace w))) by lia.
    exact Hchat.
Qed.

Lemma written_text_is_chat_answer_witness :
  exists before p out,
    abc_calls =
      before ++
      [EvChat {| model_name := "gpt-4"; model_temperature := None |} p;
       EvStWrite out]
    /\ chat_completions Fake.services (List.length before)
         {| model_name := "gpt-4"; model_temperature := None |} p
       = Ok out.
Proof.
  exact (written_text_is_chat_answer Fake.services abc_ui
           Fake.empty_world _ abc_run).
Defined.

(** ** Orchestrator: what is retrieved *)

Lemma in_firstn {A} (x : A) (k : nat) :
  forall l, In x (firstn k l) -> In x l.
Proof.
  induction k as [|k IH]; intros [|y l]; cbn; try tauto.
  intros [H|H]; [now left|right; now apply IH].
Qed.

Lemma query_in_calls (ui : LuciUIController) (corpus style p out : string)
      (k : nat) (q : string) :
  In (EvEmbedQuery q) (firstn k (pipeline_calls ui corpus style p out)) ->
  q = query_text.
Proof.
  intros Hin. apply in_firstn in Hin. cbn in Hin.
  repeat (destruct Hin as [Hin|Hin]; try discriminate);
    try contradiction; now injection Hin as <-.
Qed.

(** X12: both stores are queried with the fixed sentence of the script.
    Neither the prompt the user edited nor the documents decide what is
    asked of the stores. *)
Theorem retrieval_query_is_fixed
        (svc : Services) (ui : LuciUIController) (w w' : World)
        (r : result unit) (news : list Event) (q : string) :
  generate svc ui w = (r, w') ->
  trace w' = trace w ++ news ->
  In (EvEmbedQuery q) news ->
  q = "Please write an article in this style".
Proof.
  intros Hrun Hnews Hin.
  destruct (generate_inv svc ui w w' r Hrun)
    as (pre & k & style & texts & p0 & out & Htr & Hpre & _).
  rewrite Hnews in Htr. apply app_inv_head in Htr. subst news.
  apply in_app_or in Hin. destruct Hin as [Hin|Hin].
  - apply (in_pdf_loads _ _ Hpre) in Hin. discriminate.
  - apply query_in_calls in Hin. exact Hin.
Qed.

Lemma query_in_abc_calls : In (EvEmbedQuery query_text) abc_calls.
Proof. unfold abc_calls. cbn [In]. tauto. Qed.

Lemma retrieval_query_is_fixed_witness :
  query_text = "Please write an article in this style".
Proof.
  exact (retrieval_query_is_fixed Fake.services abc_ui Fake.empty_world
           _ _ _ query_text abc_run eq_refl query_in_abc_calls).
Defined.

(** X13: without a style document the style index is built over the
    empty text: the second text a run embeds is the empty string. *)
Theorem no_style_document_empty_style_index
        (svc : Services) (ui : LuciUIController) (w w' : World)
        (r : result unit) (pre post : list Event) (l1 l2 : list string) :
  sample_article ui = None ->
  generate svc ui w = (r, w') ->
  trace w' =
    trace w ++ pre ++ EvEmbedDocuments l1 :: EvEmbedDocuments l2 :: post ->
  Forall (fun ev => is_pdf_load ev = true) pre ->
  l2 = [""].
Proof.
  intros Hnone Hrun Htrace Hpre.
  destruct (generate_inv svc ui w w' r Hrun)
    as (pre0 & k & style & texts & p0 & out & Htr & Hpre0 & _ & Hext & _).
  rewrite Htrace in Htr. apply app_inv_head in Htr.
  destruct k as [|[|k]]; cbn in Htr.
  - rewrite app_nil_r in Htr. subst pre0.
    apply Forall_app in Hpre0. destruct Hpre0 as [_ Hbad].
    inversion Hbad; discriminate.
  - apply first_call_unique in Htr; try assumption; try reflexivity.
    destruct Htr as (_ & _ & [=]).
  - apply first_call_unique in Htr; try assumption; try reflexivity.
    destruct Htr as (_ & _ & [= -> _]).
    destruct Hext as [Hst _]; [lia|].
    unfold style_extracted in Hst. rewrite Hnone in Hst. now subst style.
Qed.

Lemma no_style_document_empty_style_index_witness :
  [""] = [""].
Proof.
  apply (no_style_document_empty_style_index Fake.services
           (essays_ui [Fake.upload "a"; Fake.upload "b"])
           Fake.empty_world _ _ [EvPdfLoad 0; EvPdfLoad 1] _ ["a b"] [""]
           eq_refl two_essays_run eq_refl).
  repeat constructor.
Defined.

(** X14: the content corpus is made of the texts extracted from the
    uploaded documents, in upload order, with exactly one space between
    consecutive texts and none before the first or after the last: its
    length is the sum of the lengths of these texts plus their number
    less one. *)
Theorem content_corpus_length
        (svc : Services) (ui : LuciUIController) (w w' : World)
        (r : result unit) (pre post : list Event) (l : list string) :
  generate svc ui w = (r, w') ->
  trace w' = trace w ++ pre ++ EvEmbedDocuments l :: post ->
  Forall (fun ev => is_pdf_load ev = true) pre ->
  exists texts corpus,
    Forall2 (extracted_from svc) (essays ui) texts
    /\ l = [corpus]
    /\ corpus = join " " texts
    /\ String.length corpus =
       list_sum (map String.length texts) + (List.length (essays ui) - 1).
Proof.
  intros Hrun Htrace Hpre.
  destruct (generate_inv svc ui w w' r Hrun)
    as (pre0 & k & style & texts & p0 & out & Htr & Hpre0 & _ & Hext & _).
  rewrite Htrace in Htr. apply app_inv_head in Htr.
  destruct k as [|k]; cbn in Htr.
  - rewrite app_nil_r in Htr. subst pre0.
    apply Forall_app in Hpre0. destruct Hpre0 as [_ Hbad].
    inversion Hbad; discriminate.
  - apply first_call_unique in Htr; try assumption; try reflexivity.
    destruct Htr as (_ & [= ->] & _).
    destruct Hext as [_ Htexts]; [lia|].
    exists texts, (join " " texts). repeat split; [assumption|].
    rewrite join_length, (Forall2_length Htexts).
    cbn [String.length]. lia.
Qed.

Lemma content_corpus_length_witness :
  exists texts corpus,
    Forall2 (extracted_from Fake.services)
      [Fake.upload "A"; Fake.upload "B"; Fake.upload "C"] texts
    /\ ["A B C"] = [corpus]
    /\ corpus = join " " texts
    /\ String.length corpus =
       list_sum (map String.length texts) + (3 - 1).
Proof.
  apply (content_corpus_length Fake.services abc_ui Fake.empty_world _ _
           [EvPdfLoad 0; EvPdfLoad 1; EvPdfLoad 2; EvPdfLoad 3] _ _
           abc_run eq_refl).
  repeat constructor.
Defined.

(** ** The script *)

(** X15: through the page, the chat service is only ever asked for one
    of the five listed models, and never with a temperature; without
    the button nothing is asked at all. *)
Theorem main_requests_listed_models_only
        (svc : Services) (wd : Widgets) (run_pressed : bool)
        (w w' : World) (r : result unit) (news : list Event)
        (m : ChatOpenAI) (p : string) :
  main svc wd run_pressed w = (r, w') ->
  trace w' = trace w ++ news ->
  In (EvChat m p) news ->
  run_pressed = true
  /\ In (model_name m) model_options
  /\ model_temperature m = None.
Proof.
  unfold main. intros Hrun Hnews Hin.
  destruct run_pressed.
  - destruct (generate_inv svc _ w w' r Hrun)
      as (pre & k & style & texts & p0 & out & Htr & Hpre & Hk6 & _).
    rewrite Hnews in Htr. apply app_inv_head in Htr. subst news.
    apply in_app_or in Hin. destruct Hin as [Hin|Hin].
    { apply (in_pdf_loads _ _ Hpre) in Hin. discriminate. }
    destruct (chat_in_calls _ _ _ _ _ _ _ _ Hk6 Hin) as (-> & _).
    repeat split. cbn [chat_model model_name setup_ui selected_model].
    apply selectbox_in_options. discriminate.
  - injection Hrun as _ <-.
    rewrite <- (app_nil_r (trace w)) in Hnews at 1.
    apply app_inv_head in Hnews. subst news. contradiction.
Qed.

Lemma abc_widgets_run :
  main Fake.services abc_widgets true Fake.empty_world =
  (Ok tt, {| files := abc_files; trace := abc_calls |}).
Proof. vm_compute. reflexivity. Qed.

Lemma main_requests_listed_models_only_witness :
  true = true
  /\ In "gpt-4" model_options
  /\ model_temperature
       {| model_name := "gpt-4"; model_temperature := None |} = None.
Proof.
  exact (main_requests_listed_models_only Fake.services abc_widgets true
           Fake.empty_world _ (Ok tt) abc_calls gpt4 abc_prompt
           abc_widgets_run eq_refl chat_in_abc_calls).
Defined.

(** X16: with the prompt the page offers left as it is and
    collaborators that answer, pressing the button always ends with an
    article written to the page, whatever was uploaded or selected,
    also when nothing was uploaded. *)
Theorem main_with_default_prompt_returns
        (svc : Services) (wd : Widgets) (w : World) :
  dependable svc ->
  prompt_edit wd = None ->
  exists w' before out,
    main svc wd true w = (Ok tt, w')
    /\ trace w' = before ++ [EvStWrite out].
Proof.
  intros Hdep Hedit. unfold main.
  assert (Hb : template_binds (prompt_text (setup_ui wd)) = true).
  { cbn [setup_ui prompt_text]. rewrite Hedit. exact default_prompt_binds. }
  destruct (generate_total svc Hdep (setup_ui wd) w Hb) as [w' Hrun].
  destruct (generate_inv svc _ w w' _ Hrun)
    as (pre & k & style & texts & p & out & Htr & _ & _ & _ & Hk).
  specialize (Hk eq_refl). subst k. cbn [firstn pipeline_calls] in Htr.
  exists w',
    (trace w ++ pre ++
     [EvEmbedDocuments [join " " texts]; EvEmbedDocuments [style];
      EvEmbedQuery query_text; EvEmbedQuery query_text;
      EvChat (chat_model (setup_ui wd)) p]), out.
  split; [assumption|]. rewrite Htr, <- !app_assoc. reflexivity.
Qed.

Lemma main_with_default_prompt_returns_witness :
  exists w' before out,
    main Fake.services
      {| model_choice := 0; temperature_slider := 7 # 10;
         sample_article_upload := None; essays_upload := [];
         prompt_edit := None |} true Fake.empty_world = (Ok tt, w')
    /\ trace w' = before ++ [EvStWrite out].
Proof.
  exact (main_with_default_prompt_returns Fake.services
           {| model_choice := 0; temperature_slider := 7 # 10;
              sample_article_upload := None; essays_upload := [];
              prompt_edit := None |}
           Fake.empty_world dependable_fake_services eq_refl).
Defined.

(** ** Orchestrator: storage over several runs *)

(** X17: temporary files pile up from run to run: after two runs that
    return, storage holds two more files for every uploaded document. *)
Theorem storage_grows_with_every_run
        (svc : Services) (ui : LuciUIController) (w w1 w2 : World) :
  generate svc ui w = (Ok tt, w1) ->
  generate svc ui w1 = (Ok tt, w2) ->
  List.length (files w2) =
  List.length (files w) + 2 * List.length (uploads ui).
Proof.
  assert (Hone : forall u u',
            generate svc ui u = (Ok tt, u') ->
            List.length (files u') =
            List.length (files u) + List.length (uploads ui)).
  { intros u u' Hrun.
    destruct (generate_outcome svc ui u u' _ Hrun) as (j & evs & Hout & ->).
    unfold run_outcome in Hout.
    pose proof (extraction_attempts svc (uploads ui) (List.length (trace u))
                  (List.length (files u))) as [_ Hall].
    destruct (extraction svc (uploads ui) _ _) as [[texts|e] j0];
      [|discriminate].
    cbn [fst snd is_ok] in Hall. specialize (Hall eq_refl). subst j0.
    destruct (split_texts ui texts) as [style sources].
    destruct (calls_after_extraction svc ui _ _ _) as [r0 evs0].
    injection Hout as _ <- _.
    cbn [after_run files].
    now rewrite length_app, length_map, firstn_all. }
  intros H1 H2. rewrite (Hone _ _ H2), (Hone _ _ H1). lia.
Qed.

Lemma two_essays_second_run :
  generate Fake.services (essays_ui [Fake.upload "a"; Fake.upload "b"])
    {| files := [closed_file (Fake.upload "a");
                 closed_file (Fake.upload "b")];
       trace := ab_calls 0 |} =
  (Ok tt,
   {| files := [closed_file (Fake.upload "a"); closed_file (Fake.upload "b");
                closed_file (Fake.upload "a"); closed_file (Fake.upload "b")];
      trace := ab_calls 0 ++ ab_calls 2 |}).
Proof. vm_compute. reflexivity. Qed.

Lemma storage_grows_with_every_run_witness :
  List.length
    [closed_file (Fake.upload "a"); closed_file (Fake.upload "b");
     closed_file (Fake.upload "a"); closed_file (Fake.upload "b")]
  = 0 + 2 * 2.
Proof.
  exact (storage_grows_with_every_run Fake.services
           (essays_ui [Fake.upload "a"; Fake.upload "b"])
           Fake.empty_world _ _ two_essays_run two_essays_second_run).
Defined.
